(** * TalentScout hiring assistant: the conversation controller

    A shallow embedding of [app/chat_logic.py] (class [TalentScoutAssistant]),
    of the state labels of [config/settings.py] and of the session loop of
    [app/main.py], followed by the properties of the four-state controller.

    The hosted language model and the structured-output decoder are external
    collaborators: they appear as a [Backend] of functions that either
    return a value or raise.  The assistant object is threaded explicitly,
    and every prompt sent to the model is recorded, so that "which calls did
    this turn make" is an observable of the model. *)

From Stdlib Require Import String Ascii List Bool Arith Lia.
From stdpp Require Import base gmap strings list pretty.

Import ListNotations.
Local Open Scope string_scope.
Local Open Scope list_scope.

(** ** Python strings *)

Module PyStr.

(** [str.lower] on ASCII text: the letters [A]..[Z] move to [a]..[z],
    every other byte is kept. *)
Definition lower_char (c : ascii) : ascii :=
  let n := nat_of_ascii c in
  if ((65 <=? n) && (n <=? 90))%nat then ascii_of_nat (n + 32) else c.

Fixpoint lower (s : string) : string :=
  match s with
  | EmptyString => EmptyString
  | String c s' => String (lower_char c) (lower s')
  end.

(** [sub in s] for two strings: substring test. *)
Fixpoint contains (sub s : string) : bool :=
  String.prefix sub s ||
  match s with
  | EmptyString => false
  | String _ s' => contains sub s'
  end.

(** [x in l] for a list of strings: membership by [==]. *)
Definition mem (x : string) (l : list string) : bool :=
  existsb (String.eqb x) l.

(** Text is held as its UTF-8 bytes.  The characters for which
    [str.isspace] holds, each as the bytes that encode it: U+0009..U+000D,
    U+001C..U+001F, U+0020, U+0085, U+00A0, U+1680, U+2000..U+200A, U+2028,
    U+2029, U+202F, U+205F and U+3000. *)
Definition whitespace_bytes : list (list nat) :=
  [[9]; [10]; [11]; [12]; [13]; [28]; [29]; [30]; [31]; [32];
   [194; 133]; [194; 160]; [225; 154; 128];
   [226; 128; 128]; [226; 128; 129]; [226; 128; 130]; [226; 128; 131];
   [226; 128; 132]; [226; 128; 133]; [226; 128; 134]; [226; 128; 135];
   [226; 128; 136]; [226; 128; 137]; [226; 128; 138];
   [226; 128; 168]; [226; 128; 169]; [226; 128; 175]; [226; 129; 159];
   [227; 128; 128]].

Definition whitespace : list (list ascii) :=
  map (map ascii_of_nat) whitespace_bytes.

(** [l] begins with the bytes [w]. *)
Fixpoint starts_with (w l : list ascii) : bool :=
  match w, l with
  | [], _ => true
  | a :: w', b :: l' => Ascii.eqb a b && starts_with w' l'
  | _ :: _, [] => false
  end.

(** The rest of [l] after the first of the encodings [W] it begins with. *)
Fixpoint chop (W : list (list ascii)) (l : list ascii) : option (list ascii) :=
  match W with
  | [] => None
  | w :: W' => if starts_with w l then Some (skipn (length w) l) else chop W' l
  end.

(** Leading characters of [W] removed, one per step, for at most [n]
    steps. *)
Fixpoint lstrip_chars (W : list (list ascii)) (n : nat) (l : list ascii)
    : list ascii :=
  match n with
  | 0 => l
  | Datatypes.S n' =>
      match chop W l with
      | Some rest => lstrip_chars W n' rest
      | None => l
      end
  end.

Definition lstrip_list (l : list ascii) : list ascii :=
  lstrip_chars whitespace (length l) l.

(** Trailing whitespace is leading whitespace of the reversed text. *)
Definition rstrip_list (l : list ascii) : list ascii :=
  rev (lstrip_chars (map (@rev ascii) whitespace) (length l) (rev l)).

Definition lstrip (s : string) : string :=
  string_of_list_ascii (lstrip_list (list_ascii_of_string s)).

Definition rstrip (s : string) : string :=
  string_of_list_ascii (rstrip_list (list_ascii_of_string s)).

(** [s.strip()]. *)
Definition strip (s : string) : string := rstrip (lstrip s).

(** [s.split(sep)] for a one-character separator: never the empty list. *)
Fixpoint split (sep : ascii) (s : string) : list string :=
  match s with
  | EmptyString => [EmptyString]
  | String c s' =>
      if Ascii.eqb c sep then EmptyString :: split sep s'
      else match split sep s' with
           | h :: t => String c h :: t
           | [] => [String c EmptyString]
           end
  end.

(** [sep.join(l)]. *)
Definition join (sep : string) (l : list string) : string :=
  String.concat sep l.

(** Truthiness of a string: [bool(s)]. *)
Definition truthy (s : string) : bool :=
  match s with EmptyString => false | _ => true end.

(** [str(n)] for a non-negative integer. *)
Definition of_nat (n : nat) : string := pretty n.

Definition newline : string := String (ascii_of_nat 10) EmptyString.

End PyStr.

(** ** config/settings.py: the state labels *)

Module State.

(** The class [State] is a bag of mutable class attributes; the controller
    reads them at call time. *)
Record t := {
  GREETING : string;
  GATHER_INFO : string;
  ASK_QUESTIONS : string;
  END : string;
  LOGIC_AGENT : string;
  MESSAGES : string
}.

(** The values assigned in [config/settings.py]. *)
Definition settings : t := {|
  GREETING := "greeting";
  GATHER_INFO := "gather_info";
  ASK_QUESTIONS := "ask_questions";
  END := "end";
  LOGIC_AGENT := "logic_agent";
  MESSAGES := "messages"
|}.

(** [app/main.py] reassigns four of the attributes before any turn. *)
Definition main : t := {|
  GREETING := "GREETING";
  GATHER_INFO := "GATHER_INFO";
  ASK_QUESTIONS := "ASK_QUESTIONS";
  END := "END";
  LOGIC_AGENT := LOGIC_AGENT settings;
  MESSAGES := MESSAGES settings
|}.

(** The four labels the controller compares against are pairwise
    different strings. *)
Definition distinct (S : t) : bool :=
  negb (String.eqb (GATHER_INFO S) (GREETING S)) &&
  negb (String.eqb (ASK_QUESTIONS S) (GREETING S)) &&
  negb (String.eqb (ASK_QUESTIONS S) (GATHER_INFO S)) &&
  negb (String.eqb (END S) (GREETING S)) &&
  negb (String.eqb (END S) (GATHER_INFO S)) &&
  negb (String.eqb (END S) (ASK_QUESTIONS S)).

End State.

(** ** Data of app/chat_logic.py *)

(** [class TechQuestion(BaseModel)]. *)
Record TechQuestion := { question : string }.

(** [class TechAssessment(BaseModel)]: [assessment] is a
    [Dict[str, List[TechQuestion]]], kept in insertion order, which is the
    order [dict.values()] iterates in.  The schema carries no length
    constraint: "3-5" appears only in the field description. *)
Record TechAssessment := { assessment : list (string * list TechQuestion) }.

(** [dict.values()]. *)
Definition values {K V : Type} (d : list (K * V)) : list V := map snd d.

(** A turn stored by the conversation memory. *)
Inductive Message :=
| HumanMessage (text : string)
| AIMessage (text : string).

Definition content (m : Message) : string :=
  match m with HumanMessage t => t | AIMessage t => t end.

Definition is_ai (m : Message) : bool :=
  match m with AIMessage _ => true | HumanMessage _ => false end.

(** What is sent to the model: one constructor per prompt of the source,
    carrying the values substituted into it. *)
Inductive Prompt :=
| INFO_GATHERING_PROMPT (history : list Message) (user_input : string)
| extraction_prompt (history : list Message)
| TECH_QUESTIONS_PROMPT_TEMPLATE (tech_stack : string).

Inductive Exception := Exc (msg : string).

Inductive result (A : Type) :=
| Ok (a : A)
| Raise (e : Exception).
Arguments Ok {A} a.
Arguments Raise {A} e.

(** The external collaborators: [self.llm] (its reply's [.content]) and
    [self.assessment_parser.parse]. *)
Record Backend := {
  llm : Prompt -> result string;
  assessment_parser : string -> result TechAssessment
}.

(** The mutable attributes of a [TalentScoutAssistant]. [memory] is the
    full message log of the [ConversationBufferWindowMemory]. *)
Record TalentScoutAssistant := {
  memory : list Message;
  tech_questions : option (list (string * list TechQuestion));
  current_question_index : nat;
  all_questions_list : list string;
  user_answers : gmap string string
}.

(** The attributes a successful [__init__] assigns. *)
Definition init : TalentScoutAssistant := {|
  memory := [];
  tech_questions := None;
  current_question_index := 0;
  all_questions_list := [];
  user_answers := ∅
|}.

(** [__init__], given [os.getenv("GEMINI_API_KEY")]: a missing or empty
    credential raises and no object is built. *)
Definition __init__ (getenv_GEMINI_API_KEY : option string)
    : result TalentScoutAssistant :=
  match getenv_GEMINI_API_KEY with
  | Some (String _ _) => Ok init
  | _ => Raise (Exc "GEMINI_API_KEY not set.")
  end.

(** ** Methods as computations over the object

    A method takes the object and gives back its result or the exception
    it raised, the object as the call left it, and the prompts it sent. *)
Definition M (A : Type) : Type :=
  TalentScoutAssistant -> result A * TalentScoutAssistant * list Prompt.

Definition ret {A} (x : A) : M A := fun self => (Ok x, self, []).

Definition raise {A} (e : Exception) : M A := fun self => (Raise e, self, []).

Definition bind {A B} (m : M A) (k : A -> M B) : M B :=
  fun self =>
    match m self with
    | (Ok x, self1, sent1) =>
        match k x self1 with
        | (r, self2, sent2) => (r, self2, sent1 ++ sent2)
        end
    | (Raise e, self1, sent1) => (Raise e, self1, sent1)
    end.

(** [try: m  except Exception: h]: the handler runs on the object as the
    failed body left it. *)
Definition try_except {A} (m : M A) (h : M A) : M A :=
  fun self =>
    match m self with
    | (Ok x, self1, sent1) => (Ok x, self1, sent1)
    | (Raise _, self1, sent1) =>
        match h self1 with
        | (r, self2, sent2) => (r, self2, sent1 ++ sent2)
        end
    end.

Definition get {A} (f : TalentScoutAssistant -> A) : M A :=
  fun self => (Ok (f self), self, []).

Definition put (f : TalentScoutAssistant -> TalentScoutAssistant) : M unit :=
  fun self => (Ok tt, f self, []).

(** Lifting a collaborator's answer. *)
Definition lift {A} (r : result A) : M A := fun self => (r, self, []).

Notation "x <- m ;; k" := (bind m (fun x => k))
  (at level 100, m at next level, right associativity).
Notation "m ;;; k" := (bind m (fun _ => k))
  (at level 100, right associativity).

Definition set_memory (v : list Message) (self : TalentScoutAssistant) :=
  {| memory := v;
     tech_questions := tech_questions self;
     current_question_index := current_question_index self;
     all_questions_list := all_questions_list self;
     user_answers := user_answers self |}.

Definition set_tech_questions (v : list (string * list TechQuestion))
    (self : TalentScoutAssistant) :=
  {| memory := memory self;
     tech_questions := Some v;
     current_question_index := current_question_index self;
     all_questions_list := all_questions_list self;
     user_answers := user_answers self |}.

Definition set_current_question_index (v : nat) (self : TalentScoutAssistant) :=
  {| memory := memory self;
     tech_questions := tech_questions self;
     current_question_index := v;
     all_questions_list := all_questions_list self;
     user_answers := user_answers self |}.

Definition set_all_questions_list (v : list string) (self : TalentScoutAssistant) :=
  {| memory := memory self;
     tech_questions := tech_questions self;
     current_question_index := current_question_index self;
     all_questions_list := v;
     user_answers := user_answers self |}.

Definition set_user_answers (v : gmap string string) (self : TalentScoutAssistant) :=
  {| memory := memory self;
     tech_questions := tech_questions self;
     current_question_index := current_question_index self;
     all_questions_list := all_questions_list self;
     user_answers := v |}.

(** [self.llm.invoke(p).content]: the prompt is recorded as sent. *)
Definition llm_invoke (B : Backend) (p : Prompt) : M string :=
  fun self => (llm B p, self, [p]).

(** [self.memory.load_memory_variables({})['history']] with [k=8] and
    [return_messages=True]: the last [2*k] stored messages. *)
Definition k : nat := 8.

Definition window (self : TalentScoutAssistant) : list Message :=
  skipn (length (memory self) - 2 * k) (memory self).

Definition load_memory_variables : M (list Message) := get window.

(** [self.info_chain.run(user_input=...)]: the chain reads the history
    window, calls the model, and on success stores the user turn and the
    model turn before returning the model's text. *)
Definition info_chain_run (B : Backend) (user_input : string) : M string :=
  history <- load_memory_variables ;;
  text <- llm_invoke B (INFO_GATHERING_PROMPT history user_input) ;;
  put (fun self =>
         set_memory (memory self ++ [HumanMessage user_input; AIMessage text]) self) ;;;
  ret text.

Definition _extract_tech_stack_from_history (B : Backend) : M (list string) :=
  history <- load_memory_variables ;;
  try_except
    (response <- llm_invoke B (extraction_prompt history) ;;
     ret (map PyStr.strip
            (List.filter (fun t => PyStr.truthy (PyStr.strip t))
               (PyStr.split "," response))))
    (ret ["Python"; "SQL"]).

(** A [for] loop over a list, run for its effects. *)
Fixpoint for_each {A} (l : list A) (body : A -> M unit) : M unit :=
  match l with
  | [] => ret tt
  | x :: l' => body x ;;; for_each l' body
  end.

(** The model call stands before the [try]; only the decoding and the
    flattening are inside it. *)
Definition _generate_technical_questions (B : Backend) (tech_stack : list string)
    : M (option (list (string * list TechQuestion))) :=
  let tech_stack_str := PyStr.join ", " tech_stack in
  response <- llm_invoke B (TECH_QUESTIONS_PROMPT_TEMPLATE tech_stack_str) ;;
  try_except
    (parsed_output <- lift (assessment_parser B response) ;;
     put (set_tech_questions (assessment parsed_output)) ;;;
     for_each (values (assessment parsed_output))
       (fun questions =>
          put (fun self =>
                 set_all_questions_list
                   (all_questions_list self ++ map question questions) self)) ;;;
     ret (Some (assessment parsed_output)))
    (ret None).

(** [l[i]] for a non-negative index. *)
Definition getitem (l : list string) (i : nat) : result string :=
  match l !! i with
  | Some x => Ok x
  | None => Raise (Exc "IndexError")
  end.

Definition _get_next_question : M (option string) :=
  i <- get current_question_index ;;
  l <- get all_questions_list ;;
  if (i <? length l)%nat then
    question <- lift (getitem l i) ;;
    put (set_current_question_index (i + 1)) ;;;
    ret (Some question)
  else ret None.

Definition _end_conversation (final_state : string) : string :=
  "Thank you for completing the initial screening with TalentScout Hiring Assistant. " +:+
  "Your information has been securely recorded. Goodbye and good luck!".

(** [if x:] and [f"{x}"] for a value that is a string or [None]. *)
Definition truthy_opt (x : option string) : bool :=
  match x with Some s => PyStr.truthy s | None => false end.

Definition format_opt (x : option string) : string :=
  match x with Some s => s | None => "None" end.

Definition exit_words : list string := ["quit"; "bye"; "exit"; "end"].

Definition process_user_input (S : State.t) (B : Backend)
    (user_input current_state : string) : M (string * string) :=
  if PyStr.mem (PyStr.lower user_input) exit_words then
    ret (_end_conversation (State.END S), State.END S)
  else if String.eqb current_state (State.GREETING S) then
    response <- info_chain_run B user_input ;;
    ret (response, State.GATHER_INFO S)
  else if String.eqb current_state (State.GATHER_INFO S) then
    history <- load_memory_variables ;;
    let history_str :=
      match last history with
      | Some m => PyStr.lower (content m)
      | None => EmptyString
      end in
    if PyStr.contains "next" (PyStr.lower user_input) &&
       PyStr.contains "technical assessment stage" history_str
    then
      tech_stack <- _extract_tech_stack_from_history B ;;
      _generate_technical_questions B tech_stack ;;;
      l <- get all_questions_list ;;
      match l with
      | _ :: _ =>
          first_question <- _get_next_question ;;
          n <- get (fun self => length (all_questions_list self)) ;;
          ret ("Excellent. We have " +:+ PyStr.of_nat n +:+
               " questions. **Question 1:** " +:+ format_opt first_question,
               State.ASK_QUESTIONS S)
      | [] =>
          ret ("I apologize, question generation failed. Ending conversation.",
               State.END S)
      end
    else
      response <- info_chain_run B user_input ;;
      ret (response, State.GATHER_INFO S)
  else if String.eqb current_state (State.ASK_QUESTIONS S) then
    i <- get current_question_index ;;
    put (fun self =>
           set_user_answers (<["Q" +:+ PyStr.of_nat i := user_input]> (user_answers self))
             self) ;;;
    next_question <- _get_next_question ;;
    if truthy_opt next_question then
      i' <- get current_question_index ;;
      let q_num := i' + 1 in
      ret ("Thank you for your answer. " +:+ PyStr.newline +:+ PyStr.newline +:+
           "**Question " +:+ PyStr.of_nat q_num +:+ ":** " +:+ format_opt next_question,
           State.ASK_QUESTIONS S)
    else
      ret (_end_conversation (State.END S), State.END S)
  else
    ret ("I did not understand. Can you please repeat?", current_state).

(** ** app/main.py: the session loop *)

Module Main.

(** The part of [st.session_state] the controller depends on: the
    assistant object and the state label.  The list of displayed messages
    is write-only for the controller and is left out. *)
Record session_state := {
  agent : TalentScoutAssistant;
  current_state : string
}.

Definition initialize_session_state (S : State.t) : session_state :=
  {| agent := init; current_state := State.GREETING S |}.

(** One run of [main()] on what [st.chat_input] returned.  Input is taken
    only while the label differs from [State.END], and only if it is truthy
    ([if prompt := ...]: an empty input takes no turn); an exception raised
    by the controller aborts the run before the label is stored, the object
    keeping whatever the call did to it. *)
Definition main (S : State.t) (B : Backend) (prompt : string)
    (st : session_state) : session_state :=
  if negb (String.eqb (current_state st) (State.END S)) then
    if PyStr.truthy prompt then
      match process_user_input S B prompt (current_state st) (agent st) with
      | (Ok (_, new_state), self', _) =>
          {| agent := self'; current_state := new_state |}
      | (Raise _, self', _) =>
          {| agent := self'; current_state := current_state st |}
      end
    else st
  else st.

(** A session: the model may answer differently on every turn, so each
    turn comes with its own backend. *)
Definition run (S : State.t) (turns : list (Backend * string)) : session_state :=
  fold_left (fun st t => main S (fst t) (snd t) st) turns
    (initialize_session_state S).

Definition reachable (S : State.t) (st : session_state) : Prop :=
  exists turns, run S turns = st.

End Main.

(** ** Test doubles for the collaborators *)

Definition marker_reply : string :=
  "Thank you for providing your details. We are now moving to the " +:+
  "**Technical Assessment Stage**. Your tech stack is: Python, SQL. " +:+
  "Please type 'NEXT' to confirm this is correct and proceed, or update your tech stack now.".

Definition mkq (text : string) : TechQuestion := {| question := text |}.

(** A backend scripted by its three replies and the decoder's verdict. *)
Definition scripted (chat extract generate : result string)
    (decoded : result TechAssessment) : Backend :=
  {| llm := fun p =>
       match p with
       | INFO_GATHERING_PROMPT _ _ => chat
       | extraction_prompt _ => extract
       | TECH_QUESTIONS_PROMPT_TEMPLATE _ => generate
       end;
     assessment_parser := fun _ => decoded |}.

Definition two_by_three : TechAssessment :=
  {| assessment :=
       [("Python", [mkq "p1"; mkq "p2"; mkq "p3"]); ("SQL", [mkq "s1"; mkq "s2"; mkq "s3"])] |}.

Definition happy : Backend :=
  scripted (Ok marker_reply) (Ok "Python, SQL") (Ok "{...}") (Ok two_by_three).

(** The model fails on the extraction call. *)
Definition extraction_down : Backend :=
  scripted (Ok marker_reply) (Raise (Exc "model unavailable")) (Ok "{...}")
    (Ok two_by_three).

(** The model fails on the generation call. *)
Definition generation_down : Backend :=
  scripted (Ok marker_reply) (Ok "Python, SQL") (Raise (Exc "model unavailable"))
    (Ok two_by_three).

(** The model's output does not decode. *)
Definition undecodable : Backend :=
  scripted (Ok marker_reply) (Ok "Python, SQL") (Ok "not json")
    (Raise (Exc "OutputParserException")).



(** The decoder accepts a question whose text is the empty string. *)
Definition with_blank : TechAssessment :=
  {| assessment := [("Python", [mkq "p1"; mkq EmptyString; mkq "p3"])] |}.

Definition blank : Backend :=
  scripted (Ok marker_reply) (Ok "Python") (Ok "{...}") (Ok with_blank).

(** A model that has not announced the assessment stage. *)
Definition chatty : Backend :=
  scripted (Ok "Thanks! What is your email address?") (Ok "Python, SQL")
    (Ok "{...}") (Ok two_by_three).

(** ** Vocabulary of the properties *)

(** The global override's test. *)
Definition is_exit (user_input : string) : bool :=
  PyStr.mem (PyStr.lower user_input) exit_words.

(** The current input contains "next", case-insensitively. *)
Definition says_next (user_input : string) : bool :=
  PyStr.contains "next" (PyStr.lower user_input).

(** The test the GATHER_INFO branch makes, as the source writes it. *)
Definition confirms (user_input : string) (self : TalentScoutAssistant) : bool :=
  PyStr.contains "next" (PyStr.lower user_input) &&
  PyStr.contains "technical assessment stage"
    match last (window self) with
    | Some m => PyStr.lower (content m)
    | None => EmptyString
    end.

(** The marker test as the specification words it: the most recent stored
    assistant turn, if any, contains the marker phrase. *)
Definition marker_in_last_assistant_turn (self : TalentScoutAssistant) : bool :=
  match last (List.filter is_ai (window self)) with
  | Some m => PyStr.contains "technical assessment stage" (PyStr.lower (content m))
  | None => false
  end.

(** A message log written by the chain only: user turn, model turn, ... *)
Fixpoint paired (l : list Message) : Prop :=
  match l with
  | [] => True
  | HumanMessage _ :: AIMessage _ :: l' => paired l'
  | _ => False
  end.

(** All questions of an assessment in the order the generator appends
    them. *)
Definition flatten (d : list (string * list TechQuestion)) : list string :=
  concat (map (map question) (values d)).


(** The key under which an answer given at cursor [i] is recorded. *)
Definition answer_key (i : nat) : string := "Q" +:+ PyStr.of_nat i.

(** The object after the controller took the given inputs as answers, one
    ASK_QUESTIONS turn each. *)
Definition answer_all (S : State.t) (B : Backend) (inputs : list string)
    (self : TalentScoutAssistant) : TalentScoutAssistant :=
  fold_left
    (fun self user_input =>
       snd (fst (process_user_input S B user_input (State.ASK_QUESTIONS S) self)))
    inputs self.

(** The controller invoked again and again, each time with the label it
    returned last (the label it was given, if it raised). *)
Definition invoke_all (S : State.t) (turns : list (Backend * string))
    (start : string * TalentScoutAssistant) : string * TalentScoutAssistant :=
  fold_left
    (fun st t =>
       match process_user_input S (fst t) (snd t) (fst st) (snd st) with
       | (Ok (_, next_state), self', _) => (next_state, self')
       | (Raise _, self', _) => (fst st, self')
       end)
    turns start.

(** The text of an ASK_QUESTIONS reply that presents a question. *)
Definition question_reply (q_num : nat) (question : string) : string :=
  "Thank you for your answer. " +:+ PyStr.newline +:+ PyStr.newline +:+
  "**Question " +:+ PyStr.of_nat q_num +:+ ":** " +:+ question.

(** The text of the confirmation reply. *)
Definition first_question_reply (n : nat) (question : string) : string :=
  "Excellent. We have " +:+ PyStr.of_nat n +:+
  " questions. **Question 1:** " +:+ question.

Definition generation_failed : string :=
  "I apologize, question generation failed. Ending conversation.".

Definition not_understood : string :=
  "I did not understand. Can you please repeat?".

(** What a session maintains, by label. *)
Definition answers_below (self : TalentScoutAssistant) : Prop :=
  forall key, is_Some (user_answers self !! key) ->
    exists i, i < current_question_index self /\ key = answer_key i.

Definition session_inv (S : State.t) (st : Main.session_state) : Prop :=
  let self := Main.agent st in
  let label := Main.current_state st in
  paired (memory self) /\
  (((label = State.GREETING S \/ label = State.GATHER_INFO S) /\
    all_questions_list self = [] /\ current_question_index self = 0 /\
    user_answers self = ∅)
   \/ (label = State.ASK_QUESTIONS S /\
       1 <= current_question_index self <= length (all_questions_list self) /\
       answers_below self)
   \/ label = State.END S).

(** A session continued from a given state. *)
Definition resume (S : State.t) (turns : list (Backend * string))
    (st : Main.session_state) : Main.session_state :=
  fold_left (fun st t => Main.main S (fst t) (snd t) st) turns st.

(** The characters of a string. *)
Definition chars (s : string) : list ascii := list_ascii_of_string s.

(** A technology name as the extractor hands it on: not empty, no
    whitespace character at either end (so stripping it again changes
    nothing), no comma inside. *)
Definition clean_token (t : string) : Prop :=
  t <> EmptyString /\
  (forall w, In w PyStr.whitespace ->
     ~ w `prefix_of` chars t /\ ~ w `suffix_of` chars t) /\
  PyStr.strip t = t /\
  ~ In ","%char (chars t).

(** The object only grows: the message log and the question queue are
    extended at the end, the cursor does not move back, no answer key is
    dropped. *)
Definition grows (self self' : TalentScoutAssistant) : Prop :=
  memory self `prefix_of` memory self' /\
  all_questions_list self `prefix_of` all_questions_list self' /\
  current_question_index self <= current_question_index self' /\
  dom (user_answers self) ⊆ dom (user_answers self').

(** The edges of the controller's state graph. *)
Definition edge (S : State.t) (s s' : string) : Prop :=
  s' = State.END S \/
  (s = State.GREETING S /\ s' = State.GATHER_INFO S) \/
  (s = State.GATHER_INFO S /\
   (s' = State.GATHER_INFO S \/ s' = State.ASK_QUESTIONS S)) \/
  (s = State.ASK_QUESTIONS S /\ s' = State.ASK_QUESTIONS S) \/
  (s <> State.GREETING S /\ s <> State.GATHER_INFO S /\
   s <> State.ASK_QUESTIONS S /\ s' = s).

(** The prompts that carry conversation history, with the history they
    carry. *)
Definition history_of (p : Prompt) : option (list Message) :=
  match p with
  | INFO_GATHERING_PROMPT history _ => Some history
  | extraction_prompt history => Some history
  | TECH_QUESTIONS_PROMPT_TEMPLATE _ => None
  end.

Definition is_extraction (p : Prompt) : bool :=
  match p with extraction_prompt _ => true | _ => false end.

(** One technology with three questions; the extraction reply carries
    blanks and empty pieces. *)
Definition three_questions : TechAssessment :=
  {| assessment := [("Python", [mkq "p1"; mkq "p2"; mkq "p3"])] |}.

Definition short : Backend :=
  scripted (Ok marker_reply) (Ok " Python ,, ") (Ok "{...}") (Ok three_questions).

(** The extraction reply holds a piece that is a lone no-break space
    (U+00A0, bytes 194 160). *)
Definition nbsp : string :=
  String (ascii_of_nat 194) (String (ascii_of_nat 160) EmptyString).

Definition spaced : Backend :=
  scripted (Ok marker_reply) (Ok ("Python," +:+ nbsp +:+ ", SQL")) (Ok "{...}")
    (Ok two_by_three).

(** The decoder accepts an assessment without any question. *)
Definition no_questions : TechAssessment :=
  {| assessment := [("Python", []); ("SQL", [])] |}.

Definition hollow : Backend :=
  scripted (Ok marker_reply) (Ok "Python, SQL") (Ok "{...}") (Ok no_questions).

(** The model fails on the chat call. *)
Definition chat_down : Backend :=
  scripted (Raise (Exc "model unavailable")) (Ok "Python, SQL") (Ok "{...}")
    (Ok two_by_three).

(** Bounds a session keeps on the cursor and on the number of recorded
    answers. *)
Definition session_bounds (S : State.t) (st : Main.session_state) : Prop :=
  let self := Main.agent st in
  let label := Main.current_state st in
  (label = State.GREETING S \/ label = State.GATHER_INFO S \/
   label = State.ASK_QUESTIONS S \/ label = State.END S) /\
  current_question_index self <= length (all_questions_list self) /\
  size (user_answers self) <= current_question_index self /\
  (label = State.ASK_QUESTIONS S ->
   size (user_answers self) + 1 = current_question_index self) /\
  (label = State.GREETING S \/ label = State.GATHER_INFO S ->
   tech_questions self = None /\ all_questions_list self = []).

(** * Properties *)

(** ** Strings and labels *)

Lemma mem_In x l : PyStr.mem x l = true <-> In x l.
Proof.
  unfold PyStr.mem. rewrite existsb_exists. split.
  - intros (y & Hy & E). apply String.eqb_eq in E. now subst.
  - intros H. exists x. split; [assumption | apply String.eqb_refl].
Qed.

Lemma is_exit_In u : is_exit u = true <-> In (PyStr.lower u) exit_words.
Proof. apply mem_In. Qed.

Lemma _end_conversation_fixed final_state :
  _end_conversation final_state =
  "Thank you for completing the initial screening with TalentScout Hiring Assistant. Your information has been securely recorded. Goodbye and good luck!".
Proof. reflexivity. Qed.

Lemma answer_key_inj i j : answer_key i = answer_key j -> i = j.
Proof.
  unfold answer_key, PyStr.of_nat. intros E.
  injection E as E. apply (inj (String.app EmptyString)) in E.
  exact (pretty_nat_inj _ _ E).
Qed.

Section Labels.
Variable S : State.t.
Hypothesis HS : State.distinct S = true.

Lemma labels_ne :
  State.GATHER_INFO S <> State.GREETING S /\
  State.ASK_QUESTIONS S <> State.GREETING S /\
  State.ASK_QUESTIONS S <> State.GATHER_INFO S /\
  State.END S <> State.GREETING S /\
  State.END S <> State.GATHER_INFO S /\
  State.END S <> State.ASK_QUESTIONS S.
Proof.
  unfold State.distinct in HS.
  repeat (apply andb_prop in HS; destruct HS as [HS ?]).
  repeat match goal with
         | H : negb (String.eqb _ _) = true |- _ =>
             apply negb_true_iff, String.eqb_neq in H
         end.
  tauto.
Qed.
End Labels.

(** Branch selection, once the input is known not to be an exit word. *)
Ltac pick_branch S HS :=
  let L := fresh "L" in
  pose proof (labels_ne S HS) as L;
  destruct L as (? & ? & ? & ? & ? & ?);
  unfold process_user_input;
  repeat match goal with
         | |- context [String.eqb ?a ?a] => rewrite (String.eqb_refl a)
         | H : ?a <> ?b |- context [String.eqb ?a ?b] =>
             rewrite (proj2 (String.eqb_neq a b) H)
         end.

(** ** What each method computes *)

Ltac run_monad :=
  cbv beta iota zeta delta
    [bind ret raise get put lift try_except llm_invoke load_memory_variables].

Lemma info_chain_run_eq B u self :
  info_chain_run B u self =
  let p := INFO_GATHERING_PROMPT (window self) u in
  match llm B p with
  | Ok text =>
      (Ok text,
       set_memory (memory self ++ [HumanMessage u; AIMessage text]) self, [p])
  | Raise e => (Raise e, self, [p])
  end.
Proof.
  unfold info_chain_run. run_monad.
  destruct (llm B _); reflexivity.
Qed.

Lemma _extract_tech_stack_from_history_eq B self :
  _extract_tech_stack_from_history B self =
  let p := extraction_prompt (window self) in
  (Ok match llm B p with
      | Ok response =>
          map PyStr.strip
            (List.filter (fun t => PyStr.truthy (PyStr.strip t))
               (PyStr.split "," response))
      | Raise _ => ["Python"; "SQL"]
      end, self, [p]).
Proof.
  unfold _extract_tech_stack_from_history. run_monad.
  destruct (llm B _); reflexivity.
Qed.

Lemma set_all_questions_list_id self :
  set_all_questions_list (all_questions_list self ++ []) self = self.
Proof. destruct self. unfold set_all_questions_list. cbn. now rewrite app_nil_r. Qed.

Lemma for_each_extend vs : forall self,
  for_each vs
    (fun questions =>
       put (fun self =>
              set_all_questions_list
                (all_questions_list self ++ map question questions) self)) self =
  (Ok tt,
   set_all_questions_list
     (all_questions_list self ++ concat (map (map question) vs)) self, []).
Proof.
  induction vs as [|v vs IH]; intros self.
  - cbn [for_each map concat]. unfold ret. now rewrite set_all_questions_list_id.
  - cbn [for_each map concat]. run_monad. rewrite IH.
    unfold set_all_questions_list. cbn. now rewrite <- app_assoc.
Qed.

Lemma _generate_technical_questions_eq B tech_stack self :
  _generate_technical_questions B tech_stack self =
  let p := TECH_QUESTIONS_PROMPT_TEMPLATE (PyStr.join ", " tech_stack) in
  match llm B p with
  | Raise e => (Raise e, self, [p])
  | Ok response =>
      match assessment_parser B response with
      | Raise _ => (Ok None, self, [p])
      | Ok parsed =>
          (Ok (Some (assessment parsed)),
           set_all_questions_list
             (all_questions_list self ++ flatten (assessment parsed))
             (set_tech_questions (assessment parsed) self), [p])
      end
  end.
Proof.
  unfold _generate_technical_questions. run_monad.
  destruct (llm B _) as [response|e]; [|reflexivity].
  destruct (assessment_parser B response) as [parsed|e]; [|reflexivity].
  rewrite for_each_extend. reflexivity.
Qed.

Lemma _get_next_question_eq self :
  _get_next_question self =
  match all_questions_list self !! current_question_index self with
  | Some question =>
      (Ok (Some question),
       set_current_question_index (current_question_index self + 1) self, [])
  | None => (Ok None, self, [])
  end.
Proof.
  unfold _get_next_question, getitem. run_monad.
  destruct (Nat.ltb_spec (current_question_index self)
              (length (all_questions_list self))) as [Hlt|Hge].
  - destruct (lookup_lt_is_Some_2 _ _ Hlt) as [question Hq].
    rewrite Hq. reflexivity.
  - rewrite (lookup_ge_None_2 _ _ Hge). reflexivity.
Qed.

Lemma bind_get {A B} (f : TalentScoutAssistant -> A) (k : A -> M B) self :
  bind (get f) k self = k (f self) self.
Proof. unfold bind, get. now destruct (k (f self) self) as [[r a] l]. Qed.

(** ** What each branch of the controller computes *)

Section Branches.
Variable S : State.t.
Hypothesis HS : State.distinct S = true.
Variable B : Backend.
Variable user_input : string.

Lemma exit_eq current_state self :
  is_exit user_input = true ->
  process_user_input S B user_input current_state self =
  (Ok (_end_conversation (State.END S), State.END S), self, []).
Proof.
  intros Hu. unfold process_user_input. unfold is_exit in Hu. now rewrite Hu.
Qed.

Hypothesis Hu : is_exit user_input = false.

Lemma greeting_eq self :
  process_user_input S B user_input (State.GREETING S) self =
  (response <- info_chain_run B user_input ;;
   ret (response, State.GATHER_INFO S)) self.
Proof. pick_branch S HS. unfold is_exit in Hu. now rewrite Hu. Qed.

Lemma gather_eq self :
  confirms user_input self = false ->
  process_user_input S B user_input (State.GATHER_INFO S) self =
  (response <- info_chain_run B user_input ;;
   ret (response, State.GATHER_INFO S)) self.
Proof.
  intros Hc. pick_branch S HS. unfold is_exit in Hu. rewrite Hu.
  unfold confirms in Hc. unfold load_memory_variables. rewrite bind_get.
  cbv zeta. now rewrite Hc.
Qed.

Lemma confirm_eq self :
  confirms user_input self = true ->
  process_user_input S B user_input (State.GATHER_INFO S) self =
  (tech_stack <- _extract_tech_stack_from_history B ;;
   _generate_technical_questions B tech_stack ;;;
   l <- get all_questions_list ;;
   match l with
   | _ :: _ =>
       first_question <- _get_next_question ;;
       n <- get (fun self => length (all_questions_list self)) ;;
       ret (first_question_reply n (format_opt first_question),
            State.ASK_QUESTIONS S)
   | [] => ret (generation_failed, State.END S)
   end) self.
Proof.
  intros Hc. pick_branch S HS. unfold is_exit in Hu. rewrite Hu.
  unfold confirms in Hc. unfold load_memory_variables. rewrite bind_get.
  cbv zeta. now rewrite Hc.
Qed.

Lemma ask_eq self :
  process_user_input S B user_input (State.ASK_QUESTIONS S) self =
  let i := current_question_index self in
  let self1 :=
    set_user_answers (<[answer_key i := user_input]> (user_answers self)) self in
  match all_questions_list self !! i with
  | Some question =>
      (Ok (if PyStr.truthy question
           then (question_reply (i + 1 + 1) question, State.ASK_QUESTIONS S)
           else (_end_conversation (State.END S), State.END S)),
       set_current_question_index (i + 1) self1, [])
  | None => (Ok (_end_conversation (State.END S), State.END S), self1, [])
  end.
Proof.
  pick_branch S HS. unfold is_exit in Hu. rewrite Hu.
  unfold bind at 1. unfold get at 1. unfold bind at 1. unfold put at 1.
  unfold bind at 1. rewrite _get_next_question_eq.
  cbn [all_questions_list current_question_index set_user_answers].
  destruct (all_questions_list self !! current_question_index self)
    as [question|]; [|reflexivity].
  cbn [truthy_opt]. destruct (PyStr.truthy question); reflexivity.
Qed.

Lemma end_eq self :
  process_user_input S B user_input (State.END S) self =
  (Ok (not_understood, State.END S), self, []).
Proof. pick_branch S HS. unfold is_exit in Hu. now rewrite Hu. Qed.

(** The confirmation transition, call by call. *)
Lemma confirm_run self :
  confirms user_input self = true ->
  process_user_input S B user_input (State.GATHER_INFO S) self =
  let p1 := extraction_prompt (window self) in
  let tech_stack :=
    match llm B p1 with
    | Ok response =>
        map PyStr.strip
          (List.filter (fun t => PyStr.truthy (PyStr.strip t))
             (PyStr.split "," response))
    | Raise _ => ["Python"; "SQL"]
    end in
  let p2 := TECH_QUESTIONS_PROMPT_TEMPLATE (PyStr.join ", " tech_stack) in
  match llm B p2 with
  | Raise e => (Raise e, self, [p1; p2])
  | Ok response =>
      let self1 :=
        match assessment_parser B response with
        | Raise _ => self
        | Ok parsed =>
            set_all_questions_list
              (all_questions_list self ++ flatten (assessment parsed))
              (set_tech_questions (assessment parsed) self)
        end in
      match all_questions_list self1 with
      | [] => (Ok (generation_failed, State.END S), self1, [p1; p2])
      | _ :: _ =>
          let n := length (all_questions_list self1) in
          match all_questions_list self1 !! current_question_index self1 with
          | Some question =>
              (Ok (first_question_reply n question, State.ASK_QUESTIONS S),
               set_current_question_index (current_question_index self1 + 1) self1,
               [p1; p2])
          | None =>
              (Ok (first_question_reply n "None", State.ASK_QUESTIONS S),
               self1, [p1; p2])
          end
      end
  end.
Proof.
  intros Hc. rewrite (confirm_eq self Hc).
  unfold bind at 1. rewrite _extract_tech_stack_from_history_eq. cbv zeta.
  set (p1 := extraction_prompt (window self)).
  set (tech_stack := match llm B p1 with Ok _ => _ | Raise _ => _ end).
  unfold bind at 1. rewrite _generate_technical_questions_eq. cbv zeta.
  set (p2 := TECH_QUESTIONS_PROMPT_TEMPLATE _).
  destruct (llm B p2) as [response|e]; [|reflexivity].
  assert (Hgen : forall r self1,
    (l <- get all_questions_list ;;
     match l with
     | _ :: _ =>
         first_question <- _get_next_question ;;
         n <- get (fun self => length (all_questions_list self)) ;;
         ret (first_question_reply n (format_opt first_question),
              State.ASK_QUESTIONS S)
     | [] => ret (generation_failed, State.END S)
     end) self1 = r ->
    (let (p, sent2) := r in
     let (r0, self2) := p in (r0, self2, [p1] ++ [p2] ++ sent2)) =
    match all_questions_list self1 with
    | [] => (Ok (generation_failed, State.END S), self1, [p1; p2])
    | _ :: _ =>
        match all_questions_list self1 !! current_question_index self1 with
        | Some question =>
            (Ok (first_question_reply (length (all_questions_list self1)) question,
                 State.ASK_QUESTIONS S),
             set_current_question_index (current_question_index self1 + 1) self1,
             [p1; p2])
        | None =>
            (Ok (first_question_reply (length (all_questions_list self1)) "None",
                 State.ASK_QUESTIONS S),
             self1, [p1; p2])
        end
    end).
  { intros r self1 <-. rewrite bind_get.
    destruct (all_questions_list self1) as [|q0 l0] eqn:El; [reflexivity|].
    unfold bind at 1. rewrite _get_next_question_eq. rewrite El.
    destruct ((q0 :: l0) !! current_question_index self1) as [question|].
    - rewrite bind_get. cbn [all_questions_list set_current_question_index].
      rewrite El. reflexivity.
    - rewrite bind_get. rewrite El. reflexivity. }
  destruct (assessment_parser B response) as [parsed|e].
  - match goal with
    | |- context [bind ?m ?f ?a] => specialize (Hgen (bind m f a) a eq_refl)
    end.
    destruct (bind _ _ _) as [[r0 a0] l0] in Hgen |- *.
    cbv zeta. exact Hgen.
  - match goal with
    | |- context [bind ?m ?f ?a] => specialize (Hgen (bind m f a) a eq_refl)
    end.
    destruct (bind _ _ _) as [[r0 a0] l0] in Hgen |- *.
    cbv zeta. exact Hgen.
Qed.

End Branches.

(** ** The conversation memory *)

Lemma paired_app : forall l l', paired l -> paired l' -> paired (l ++ l').
Proof.
  fix IH 1. intros [|[h|a] [|[h'|a'] l]] l'; cbn [paired app]; try tauto.
  intros Hl Hl'. apply IH; assumption.
Qed.

Lemma paired_last : forall l m, paired l -> last l = Some m -> is_ai m = true.
Proof.
  fix IH 1. intros [|[h|a] [|[h'|a'] l]] m; cbn [paired]; try tauto.
  - discriminate.
  - intros Hl Hlast.
    assert (E : l = [] \/ last l = Some m).
    { destruct l as [|x l2]; [now left | right].
      now rewrite !last_cons_cons in Hlast. }
    destruct E as [-> | E].
    + cbn in Hlast. injection Hlast as <-. reflexivity.
    + exact (IH l m Hl E).
Qed.

Lemma last_window self : last (window self) = last (memory self).
Proof.
  unfold window. generalize (memory self) as l. intros l.
  destruct l as [|x l']; [reflexivity|].
  rewrite !last_lookup, lookup_drop, length_drop. f_equal.
  unfold k. cbn [length]. lia.
Qed.

Lemma last_filter_ai (l : list Message) m :
  last l = Some m -> is_ai m = true -> last (List.filter is_ai l) = Some m.
Proof.
  intros Hl Hm. apply last_Some in Hl as [l' ->].
  rewrite List.filter_app. cbn [List.filter]. rewrite Hm. apply last_snoc.
Qed.

(** On a log written by the chain, the last stored message is the most
    recent assistant turn, so the source's test is the specification's. *)
Lemma marker_test_agrees user_input self :
  paired (memory self) ->
  confirms user_input self =
  marker_in_last_assistant_turn self && says_next user_input.
Proof.
  intros Hp. unfold confirms, marker_in_last_assistant_turn, says_next.
  rewrite andb_comm. f_equal.
  destruct (last (window self)) as [m|] eqn:El.
  - assert (Hm : is_ai m = true).
    { apply (paired_last (memory self)); [assumption|]. now rewrite <- last_window. }
    now rewrite (last_filter_ai _ _ El Hm).
  - apply last_None in El. rewrite El. reflexivity.
Qed.

(** ** The session invariant *)

Lemma run_snoc S turns B user_input :
  Main.run S (turns ++ [(B, user_input)]) = Main.main S B user_input (Main.run S turns).
Proof. unfold Main.run. now rewrite fold_left_app. Qed.

Lemma answers_below_insert self user_input :
  answers_below self ->
  answers_below
    (set_current_question_index (current_question_index self + 1)
       (set_user_answers
          (<[answer_key (current_question_index self) := user_input]>
             (user_answers self)) self)).
Proof.
  intros Hb key. cbn [user_answers current_question_index
                      set_current_question_index set_user_answers].
  rewrite lookup_insert. case_decide as Hk.
  - intros _. exists (current_question_index self). split; [lia | now symmetry].
  - intros Hsome. destruct (Hb key Hsome) as (i & Hi & ->).
    exists i. split; [lia | reflexivity].
Qed.

Lemma main_preserves_inv S B user_input st :
  State.distinct S = true ->
  session_inv S st -> session_inv S (Main.main S B user_input st).
Proof.
  intros HS Hinv. pose proof (labels_ne S HS) as (N1 & N2 & N3 & N4 & N5 & N6).
  unfold Main.main.
  destruct (String.eqb_spec (Main.current_state st) (State.END S)) as [|Hne];
    cbn [negb]; [assumption|].
  destruct (PyStr.truthy user_input); [|assumption].
  destruct st as [self label]. cbn [Main.agent Main.current_state] in *.
  destruct Hinv as [Hp Hinv]. unfold session_inv.
  cbn [Main.agent Main.current_state] in *.
  destruct (is_exit user_input) eqn:Hu.
  { rewrite (exit_eq S B user_input label self Hu).
    cbn [Main.agent Main.current_state]. auto. }
  destruct Hinv as [([-> | ->] & Hq & Hi & Ha) | [(-> & Hi & Hb) | ->]];
    [ | | | contradiction].
  - rewrite (greeting_eq S HS B user_input Hu). unfold bind.
    rewrite info_chain_run_eq. cbv zeta.
    destruct (llm B _) as [text|e]; cbn [Main.agent Main.current_state ret].
    + split; [apply paired_app; [assumption | exact I]|].
      left. cbn. auto.
    + split; [assumption|]. left. auto.
  - destruct (confirms user_input self) eqn:Hc.
    + rewrite (confirm_run S HS B user_input Hu self Hc). cbv zeta.
      destruct (llm B (TECH_QUESTIONS_PROMPT_TEMPLATE _)) as [response|e].
      * destruct (assessment_parser B response) as [parsed|e].
        -- cbn [all_questions_list set_all_questions_list set_tech_questions
                current_question_index].
           rewrite Hq, Hi. cbn [app].
           destruct (flatten (assessment parsed)) as [|q0 l0];
             cbn [Main.agent Main.current_state]; [auto|].
           cbn [lookup list_lookup]. cbn [Main.agent Main.current_state].
           split; [assumption|]. right. left. split; [reflexivity|].
           cbn [all_questions_list current_question_index
                set_current_question_index set_all_questions_list length].
           split; [lia|].
           intros key. cbn [user_answers set_current_question_index
                            set_all_questions_list set_tech_questions].
           rewrite Ha, lookup_empty. intros [? [=]].
        -- rewrite Hq. cbn [Main.agent Main.current_state]. auto.
      * cbn [Main.agent Main.current_state]. split; [assumption|]. left. auto.
    + rewrite (gather_eq S HS B user_input Hu self Hc). unfold bind.
      rewrite info_chain_run_eq. cbv zeta.
      destruct (llm B _) as [text|e]; cbn [Main.agent Main.current_state ret].
      * split; [apply paired_app; [assumption | exact I]|].
        left. cbn. auto.
      * split; [assumption|]. left. auto.
  - rewrite (ask_eq S HS B user_input Hu). cbv zeta.
    destruct (all_questions_list self !! current_question_index self)
      as [question|] eqn:El.
    + apply lookup_lt_Some in El.
      destruct (PyStr.truthy question); cbn [Main.agent Main.current_state].
      * split; [assumption|]. right. left. split; [reflexivity|].
        split; [cbn; lia|]. now apply answers_below_insert.
      * split; [assumption|]. auto.
    + cbn [Main.agent Main.current_state]. split; [assumption|]. auto.
Qed.

Lemma init_inv S : session_inv S (Main.initialize_session_state S).
Proof.
  unfold session_inv, Main.initialize_session_state.
  cbn [Main.agent Main.current_state]. split; [exact I|].
  left. repeat split. now left.
Qed.

Lemma reachable_inv S st :
  State.distinct S = true -> Main.reachable S st -> session_inv S st.
Proof.
  intros HS [turns <-].
  induction turns as [|[B user_input] turns IH] using rev_ind.
  - apply init_inv.
  - rewrite run_snoc. now apply main_preserves_inv.
Qed.

(** ** The global exit override *)

(** C2. In every state, an input whose lower-cased text is one of "quit",
    "bye", "exit", "end" makes [process_user_input] return the fixed closing
    message and the label END; nothing state-specific runs: the object is
    left as it was and no prompt is sent. *)
Theorem exit_override (S : State.t) (B : Backend)
    (user_input current_state : string) (self : TalentScoutAssistant) :
  In (PyStr.lower user_input) exit_words ->
  process_user_input S B user_input current_state self =
  (Ok ("Thank you for completing the initial screening with TalentScout Hiring Assistant. Your information has been securely recorded. Goodbye and good luck!",
       State.END S), self, []).
Proof.
  intros Hu. apply is_exit_In in Hu.
  rewrite (exit_eq S B user_input current_state self Hu).
  now rewrite _end_conversation_fixed.
Qed.

Lemma exit_override_witness :
  In (PyStr.lower "Quit") exit_words /\
  process_user_input State.main happy "Quit" (State.ASK_QUESTIONS State.main) init =
  (Ok ("Thank you for completing the initial screening with TalentScout Hiring Assistant. Your information has been securely recorded. Goodbye and good luck!",
       State.END State.main), init, []).
Proof.
  split.
  - simpl. auto.
  - apply (exit_override State.main happy "Quit"). simpl. auto.
Defined.

(** ** END is absorbing *)

(** C7. Invoked with the label END, [process_user_input] returns the label
    END for every input: the closing message for an exit word, the "did not
    understand" text otherwise, with the object untouched.  Hence any
    sequence of further invocations that starts at END stays at END. *)
Theorem END_absorbing (S : State.t) (B : Backend) (user_input : string)
    (self : TalentScoutAssistant) :
  State.distinct S = true ->
  process_user_input S B user_input (State.END S) self =
    (Ok (if is_exit user_input
         then _end_conversation (State.END S)
         else "I did not understand. Can you please repeat?",
         State.END S), self, []) /\
  forall turns, invoke_all S turns (State.END S, self) = (State.END S, self).
Proof.
  intros HS.
  assert (Hstep : forall B' u' self',
    process_user_input S B' u' (State.END S) self' =
    (Ok (if is_exit u' then _end_conversation (State.END S) else not_understood,
         State.END S), self', [])).
  { intros B' u' self'. destruct (is_exit u') eqn:Hu.
    - now apply exit_eq.
    - now apply end_eq. }
  split; [apply Hstep|].
  intros turns. unfold invoke_all.
  induction turns as [|[B' u'] turns IH]; [reflexivity|].
  cbn [fold_left fst snd]. rewrite Hstep. exact IH.
Qed.

Lemma END_absorbing_witness :
  State.distinct State.main = true /\
  process_user_input State.main happy "hello again" (State.END State.main) init =
    (Ok ("I did not understand. Can you please repeat?", State.END State.main),
     init, []) /\
  invoke_all State.main [(happy, "hello"); (happy, "next"); (happy, "bye")]
    (State.END State.main, init) = (State.END State.main, init).
Proof.
  split; [reflexivity|].
  destruct (END_absorbing State.main happy "hello again" init eq_refl) as [H1 H2].
  split; [exact H1 | apply H2].
Defined.

(** ** Tech-stack extraction *)

(** C6. If the model call of the extraction raises,
    [_extract_tech_stack_from_history] returns exactly the fallback list
    ["Python", "SQL"]; nothing is raised to the caller and the object is
    unchanged. *)
Theorem extraction_fallback (B : Backend) (self : TalentScoutAssistant)
    (e : Exception) :
  llm B (extraction_prompt (window self)) = Raise e ->
  _extract_tech_stack_from_history B self =
  (Ok ["Python"; "SQL"], self, [extraction_prompt (window self)]).
Proof.
  intros Hraise. rewrite _extract_tech_stack_from_history_eq. cbv zeta.
  now rewrite Hraise.
Qed.

Lemma extraction_fallback_witness :
  llm extraction_down (extraction_prompt (window init)) =
    Raise (Exc "model unavailable") /\
  _extract_tech_stack_from_history extraction_down init =
    (Ok ["Python"; "SQL"], init, [extraction_prompt (window init)]).
Proof.
  split; [reflexivity|].
  apply (extraction_fallback extraction_down init (Exc "model unavailable")).
  reflexivity.
Defined.

(** ** Answers *)

(** C8. An ASK_QUESTIONS turn with a non-exit input returns normally, and
    afterwards the answer mapping holds, under the key built from the cursor
    as it was when the turn began, the input text itself. *)
Theorem answer_roundtrip (S : State.t) (B : Backend) (user_input : string)
    (self : TalentScoutAssistant) :
  State.distinct S = true ->
  is_exit user_input = false ->
  exists reply self',
    process_user_input S B user_input (State.ASK_QUESTIONS S) self =
      (Ok reply, self', []) /\
    user_answers self' !! ("Q" +:+ PyStr.of_nat (current_question_index self)) =
      Some user_input.
Proof.
  intros HS Hu. rewrite (ask_eq S HS B user_input Hu). cbv zeta.
  destruct (all_questions_list self !! current_question_index self) as [question|].
  - eexists _, _. split; [reflexivity|].
    cbn [user_answers set_current_question_index set_user_answers].
    apply lookup_insert_eq.
  - eexists _, _. split; [reflexivity|].
    cbn [user_answers set_user_answers]. apply lookup_insert_eq.
Qed.

Lemma answer_roundtrip_witness :
  State.distinct State.main = true /\
  is_exit "I would use a Dict, NEXT question please" = false /\
  exists reply self',
    process_user_input State.main happy "I would use a Dict, NEXT question please"
      (State.ASK_QUESTIONS State.main)
      (Main.agent (Main.run State.main [(happy, "Ada"); (happy, "next")])) =
      (Ok reply, self', []) /\
    user_answers self' !! "Q1" = Some "I would use a Dict, NEXT question please".
Proof.
  split; [reflexivity|]. split; [reflexivity|].
  exact (answer_roundtrip State.main happy "I would use a Dict, NEXT question please"
           (Main.agent (Main.run State.main [(happy, "Ada"); (happy, "next")]))
           eq_refl eq_refl).
Defined.

(** C10. In a session, an ASK_QUESTIONS turn with a non-exit input records
    its answer under a key that was not in the mapping before, so the
    mapping gains exactly that one key and every earlier entry is kept as it
    was; the question queue is unchanged; the cursor grows by one if a
    question remained and stays otherwise. *)
Theorem answering_frame (S : State.t) (st : Main.session_state) (B : Backend)
    (user_input : string) :
  State.distinct S = true ->
  Main.reachable S st ->
  Main.current_state st = State.ASK_QUESTIONS S ->
  is_exit user_input = false ->
  let self := Main.agent st in
  let key := answer_key (current_question_index self) in
  exists reply self',
    process_user_input S B user_input (State.ASK_QUESTIONS S) self =
      (Ok reply, self', []) /\
    user_answers self !! key = None /\
    dom (user_answers self') = {[key]} ∪ dom (user_answers self) /\
    size (user_answers self') = 1 + size (user_answers self) /\
    (forall key' v, user_answers self !! key' = Some v ->
                    user_answers self' !! key' = Some v) /\
    all_questions_list self' = all_questions_list self /\
    current_question_index self' =
      if (current_question_index self <? length (all_questions_list self))%nat
      then current_question_index self + 1
      else current_question_index self.
Proof.
  intros HS Hreach Hlabel Hu self key.
  pose proof (labels_ne S HS) as (N1 & N2 & N3 & N4 & N5 & N6).
  pose proof (reachable_inv S st HS Hreach) as [_ Hinv].
  rewrite Hlabel in Hinv.
  destruct Hinv as [([E | E] & _) | [(_ & Hi & Hb) | E]]; try congruence.
  fold self in Hi, Hb.
  assert (Hfresh : user_answers self !! key = None).
  { destruct (user_answers self !! key) as [v|] eqn:Ek; [|reflexivity].
    destruct (Hb key) as (i & Hlt & Ei); [now rewrite Ek|].
    apply answer_key_inj in Ei. lia. }
  assert (Hkeep : forall key' v, user_answers self !! key' = Some v ->
            <[key := user_input]> (user_answers self) !! key' = Some v).
  { intros key' v Hv. rewrite lookup_insert_ne; [assumption|].
    intros <-. congruence. }
  rewrite (ask_eq S HS B user_input Hu). cbv zeta. fold self. fold key.
  destruct (all_questions_list self !! current_question_index self)
    as [question|] eqn:El.
  - apply lookup_lt_Some in El. apply Nat.ltb_lt in El. rewrite El.
    eexists _, _. split; [reflexivity|].
    cbn [user_answers all_questions_list current_question_index
         set_current_question_index set_user_answers].
    repeat split; try assumption; try reflexivity.
    + apply dom_insert_L.
    + now apply map_size_insert_None.
  - apply lookup_ge_None in El. apply Nat.ltb_ge in El. rewrite El.
    eexists _, _. split; [reflexivity|].
    cbn [user_answers all_questions_list current_question_index set_user_answers].
    repeat split; try assumption; try reflexivity.
    + apply dom_insert_L.
    + now apply map_size_insert_None.
Qed.

Lemma answering_frame_witness :
  let st := Main.run State.main [(happy, "Ada"); (happy, "next"); (happy, "a1")] in
  State.distinct State.main = true /\
  Main.reachable State.main st /\
  Main.current_state st = State.ASK_QUESTIONS State.main /\
  is_exit "a2" = false /\
  exists reply self',
    process_user_input State.main happy "a2" (State.ASK_QUESTIONS State.main)
      (Main.agent st) = (Ok reply, self', []) /\
    user_answers (Main.agent st) !! "Q2" = None /\
    dom (user_answers self') = {["Q2"]} ∪ dom (user_answers (Main.agent st)) /\
    all_questions_list self' = all_questions_list (Main.agent st) /\
    current_question_index self' = 3.
Proof.
  intros st.
  assert (Hreach : Main.reachable State.main st) by (eexists; reflexivity).
  split; [reflexivity|]. split; [exact Hreach|].
  split; [reflexivity|]. split; [reflexivity|].
  destruct (answering_frame State.main st happy "a2" eq_refl Hreach eq_refl eq_refl)
    as (reply & self' & Hrun & Hfresh & Hdom & _ & _ & Hq & Hc).
  exists reply, self'. repeat split; assumption.
Defined.

(** ** Leaving GATHER_INFO *)

(** C1. In a session in state GATHER_INFO, on a non-exit input, the
    confirmation transition (the extraction call followed by the generation
    call, ending in ASK_QUESTIONS or END when it returns) happens if and
    only if the most recent stored assistant turn contains the marker phrase
    and the input contains "next", both compared in lower case.  Otherwise
    the turn is the information-gathering call alone, and the label it
    returns is GATHER_INFO. *)
Theorem confirmation_iff (S : State.t) (st : Main.session_state) (B : Backend)
    (user_input : string) :
  State.distinct S = true ->
  Main.reachable S st ->
  Main.current_state st = State.GATHER_INFO S ->
  is_exit user_input = false ->
  let self := Main.agent st in
  let both := marker_in_last_assistant_turn self && says_next user_input in
  let turn := process_user_input S B user_input (State.GATHER_INFO S) self in
  (In (extraction_prompt (window self)) (snd turn) <-> both = true) /\
  (both = true ->
     (exists tech_stack,
        snd turn = [extraction_prompt (window self);
                    TECH_QUESTIONS_PROMPT_TEMPLATE tech_stack]) /\
     (forall reply next_state, fst (fst turn) = Ok (reply, next_state) ->
        next_state = State.ASK_QUESTIONS S \/ next_state = State.END S)) /\
  (both = false ->
     turn =
       match llm B (INFO_GATHERING_PROMPT (window self) user_input) with
       | Ok text =>
           (Ok (text, State.GATHER_INFO S),
            set_memory (memory self ++ [HumanMessage user_input; AIMessage text]) self,
            [INFO_GATHERING_PROMPT (window self) user_input])
       | Raise e => (Raise e, self, [INFO_GATHERING_PROMPT (window self) user_input])
       end).
Proof.
  intros HS Hreach Hlabel Hu self both turn.
  pose proof (reachable_inv S st HS Hreach) as [Hp _]. fold self in Hp.
  pose proof (marker_test_agrees user_input self Hp) as Hc. fold both in Hc.
  assert (Hyes : both = true ->
    (exists tech_stack,
        snd turn = [extraction_prompt (window self);
                    TECH_QUESTIONS_PROMPT_TEMPLATE tech_stack]) /\
    (forall reply next_state, fst (fst turn) = Ok (reply, next_state) ->
        next_state = State.ASK_QUESTIONS S \/ next_state = State.END S)).
  { intros Hb. rewrite Hb in Hc. subst turn.
    rewrite (confirm_run S HS B user_input Hu self Hc). cbv zeta.
    set (tech_stack := match llm B (extraction_prompt _) with
                       | Ok _ => _ | Raise _ => _ end).
    clearbody tech_stack.
    destruct (llm B (TECH_QUESTIONS_PROMPT_TEMPLATE _)) as [response|e].
    - split; [exists (PyStr.join ", " tech_stack); repeat case_match; reflexivity|].
      intros reply next_state.
      repeat case_match; cbn [fst]; intros [= _ <-]; auto.
    - split; [eexists; reflexivity|]. intros reply next_state. cbn [fst].
      discriminate. }
  assert (Hno : both = false ->
    turn =
      match llm B (INFO_GATHERING_PROMPT (window self) user_input) with
      | Ok text =>
          (Ok (text, State.GATHER_INFO S),
           set_memory (memory self ++ [HumanMessage user_input; AIMessage text]) self,
           [INFO_GATHERING_PROMPT (window self) user_input])
      | Raise e => (Raise e, self, [INFO_GATHERING_PROMPT (window self) user_input])
      end).
  { intros Hb. rewrite Hb in Hc. subst turn.
    rewrite (gather_eq S HS B user_input Hu self Hc). unfold bind.
    rewrite info_chain_run_eq. cbv zeta.
    destruct (llm B _); reflexivity. }
  split; [|split; assumption].
  destruct both.
  - destruct (Hyes eq_refl) as [[tech_stack ->] _]. split; [reflexivity|].
    intros _. now left.
  - rewrite (Hno eq_refl). split; [|discriminate].
    destruct (llm B _); cbn [snd]; intros [[=]|[]].
Qed.

Lemma confirmation_iff_witness :
  let st := Main.run State.main [(happy, "Ada")] in
  State.distinct State.main = true /\
  Main.reachable State.main st /\
  Main.current_state st = State.GATHER_INFO State.main /\
  is_exit "Next" = false /\
  marker_in_last_assistant_turn (Main.agent st) && says_next "Next" = true /\
  In (extraction_prompt (window (Main.agent st)))
    (snd (process_user_input State.main happy "Next"
            (State.GATHER_INFO State.main) (Main.agent st))).
Proof.
  intros st.
  assert (Hreach : Main.reachable State.main st) by (eexists; reflexivity).
  split; [reflexivity|]. split; [exact Hreach|].
  split; [reflexivity|]. split; [reflexivity|]. split; [reflexivity|].
  destruct (confirmation_iff State.main st happy "Next" eq_refl Hreach eq_refl eq_refl)
    as [Hiff _].
  apply Hiff. reflexivity.
Defined.

(** "next" typed before the model announced the assessment stage keeps the
    session gathering. *)
Example next_too_early :
  fst (fst (process_user_input State.main chatty "what comes next?"
              (State.GATHER_INFO State.main)
              (Main.agent (Main.run State.main [(chatty, "Ada")])))) =
  Ok ("Thanks! What is your email address?", "GATHER_INFO").
Proof. reflexivity. Qed.

(** ** The question cursor *)

Lemma ask_cursor S B user_input self :
  State.distinct S = true ->
  is_exit user_input = false ->
  let self' :=
    snd (fst (process_user_input S B user_input (State.ASK_QUESTIONS S) self)) in
  all_questions_list self' = all_questions_list self /\
  current_question_index self' =
    if (current_question_index self <? length (all_questions_list self))%nat
    then current_question_index self + 1
    else current_question_index self.
Proof.
  intros HS Hu. cbv zeta. rewrite (ask_eq S HS B user_input Hu). cbv zeta.
  destruct (all_questions_list self !! current_question_index self)
    as [question|] eqn:El.
  - apply lookup_lt_Some in El. apply Nat.ltb_lt in El. rewrite El.
    split; reflexivity.
  - apply lookup_ge_None in El. apply Nat.ltb_ge in El. rewrite El.
    split; reflexivity.
Qed.

Lemma answer_all_cursor S B inputs :
  State.distinct S = true ->
  Forall (fun user_input => is_exit user_input = false) inputs ->
  forall self,
    current_question_index self <= length (all_questions_list self) ->
    all_questions_list (answer_all S B inputs self) = all_questions_list self /\
    current_question_index (answer_all S B inputs self) =
      Nat.min (current_question_index self + length inputs)
        (length (all_questions_list self)).
Proof.
  intros HS Hall. unfold answer_all.
  induction Hall as [|user_input inputs Hu _ IH]; intros self Hle.
  - cbn [fold_left length]. split; [reflexivity | lia].
  - cbn [fold_left length].
    destruct (ask_cursor S B user_input self HS Hu) as [Hq Hc].
    set (self' := snd (fst (process_user_input S B user_input
                              (State.ASK_QUESTIONS S) self))) in *.
    destruct (IH self') as [IHq IHc].
    + rewrite Hq, Hc. destruct (Nat.ltb_spec (current_question_index self)
                                  (length (all_questions_list self))); lia.
    + rewrite IHq, IHc, Hq, Hc. split; [reflexivity|].
      destruct (Nat.ltb_spec (current_question_index self)
                  (length (all_questions_list self))); lia.
Qed.

(** The claim C3 as stated fails: one answer after the entry point leaves
    the cursor at 2, not at 1. *)
Lemma cursor_is_not_answer_count :
  let self := Main.agent (Main.run State.main [(happy, "Ada"); (happy, "next")]) in
  current_question_index self = 1 /\
  is_exit "a1" = false /\
  current_question_index (answer_all State.main happy ["a1"] self) = 2 /\
  current_question_index (answer_all State.main happy ["a1"] self) <> length ["a1"].
Proof.
  cbv zeta. repeat split; try reflexivity.
  vm_compute. discriminate.
Qed.

(** C3, amended. From the ASK_QUESTIONS entry point (cursor 1, a queue of
    L >= 1 questions), after M answers with non-exit inputs the cursor is
    min(M + 1, L), the number of questions handed out so far; it equals M
    exactly when M = L.  Whenever the cursor equals the queue length,
    [_get_next_question] yields no question and the controller returns the
    closing message and the label END, the cursor staying where it is. *)
Theorem cursor_after_answers (S : State.t) (B : Backend) (inputs : list string)
    (self : TalentScoutAssistant) :
  State.distinct S = true ->
  Forall (fun user_input => is_exit user_input = false) inputs ->
  current_question_index self = 1 ->
  1 <= length (all_questions_list self) ->
  let L := length (all_questions_list self) in
  let self' := answer_all S B inputs self in
  current_question_index self' = Nat.min (length inputs + 1) L /\
  (current_question_index self' = length inputs <-> length inputs = L) /\
  (forall user_input self0,
     is_exit user_input = false ->
     current_question_index self0 = length (all_questions_list self0) ->
     _get_next_question self0 = (Ok None, self0, []) /\
     exists self1,
       process_user_input S B user_input (State.ASK_QUESTIONS S) self0 =
         (Ok (_end_conversation (State.END S), State.END S), self1, []) /\
       current_question_index self1 = current_question_index self0).
Proof.
  intros HS Hall Hc HL L self'.
  destruct (answer_all_cursor S B inputs HS Hall self) as [_ Hcur]; [lia|].
  fold self' in Hcur. fold L in Hcur. rewrite Hc in Hcur.
  split; [rewrite Hcur; f_equal; lia|].
  split; [rewrite Hcur; subst L; lia|].
  intros user_input self0 Hu Hend.
  assert (Hnone : all_questions_list self0 !! current_question_index self0 = None).
  { apply lookup_ge_None. lia. }
  split.
  - rewrite _get_next_question_eq. now rewrite Hnone.
  - rewrite (ask_eq S HS B user_input Hu). cbv zeta. rewrite Hnone.
    eexists. split; reflexivity.
Qed.

Lemma cursor_after_answers_witness :
  let self := Main.agent (Main.run State.main [(happy, "Ada"); (happy, "next")]) in
  State.distinct State.main = true /\
  Forall (fun user_input => is_exit user_input = false) ["a1"; "a2"] /\
  current_question_index self = 1 /\
  1 <= length (all_questions_list self) /\
  current_question_index (answer_all State.main happy ["a1"; "a2"] self) = 3.
Proof.
  intros self.
  assert (Hall : Forall (fun user_input => is_exit user_input = false) ["a1"; "a2"])
    by (repeat constructor).
  assert (HL : 1 <= length (all_questions_list self)) by (vm_compute; lia).
  split; [reflexivity|]. split; [exact Hall|]. split; [reflexivity|].
  split; [exact HL|].
  destruct (cursor_after_answers State.main happy ["a1"; "a2"] self
              eq_refl Hall eq_refl HL) as [Hcur _].
  exact Hcur.
Defined.

(** ** Question numbering *)

(** C9. In an ASK_QUESTIONS turn in which another question remains, the
    reply should present that question.  When the question that remains is
    the empty string the code does not: [if next_question:] takes it for an
    exhausted queue, so the reply is the closing message and the label END,
    with a question still unasked, instead of that question under the
    number c + 2. *)
Lemma blank_question_ends_session :
  let st := Main.run State.main [(blank, "Ada"); (blank, "next")] in
  Main.current_state st = State.ASK_QUESTIONS State.main /\
  current_question_index (Main.agent st) = 1 /\
  all_questions_list (Main.agent st) = ["p1"; EmptyString; "p3"] /\
  is_exit "a1" = false /\
  fst (fst (process_user_input State.main blank "a1"
              (State.ASK_QUESTIONS State.main) (Main.agent st))) =
    Ok (_end_conversation "END", "END") /\
  fst (fst (process_user_input State.main blank "a1"
              (State.ASK_QUESTIONS State.main) (Main.agent st))) <>
    Ok (question_reply (1 + 2) EmptyString, State.ASK_QUESTIONS State.main).
Proof.
  cbv zeta. repeat split; try reflexivity.
  vm_compute. discriminate.
Qed.

(** Numbering of the questions that are presented.  In an ASK_QUESTIONS
    turn with a non-exit input, begun at
    cursor c, in which another question remains and is not the empty string,
    the question returned is the one at queue position c + 1 (counting from
    1) while the number shown with it is c + 2, and the label stays
    ASK_QUESTIONS.  At the confirmation turn of a session, when generation
    yields a non-empty queue, the question shown is the first of the queue
    and it is shown as "Question 1". *)
Theorem question_numbering (S : State.t) (st : Main.session_state) (B : Backend)
    (user_input : string) :
  State.distinct S = true ->
  Main.reachable S st ->
  is_exit user_input = false ->
  let self := Main.agent st in
  let c := current_question_index self in
  (forall question,
     all_questions_list self !! c = Some question ->
     question <> EmptyString ->
     fst (fst (process_user_input S B user_input (State.ASK_QUESTIONS S) self)) =
       Ok ("Thank you for your answer. " +:+ PyStr.newline +:+ PyStr.newline +:+
           "**Question " +:+ PyStr.of_nat (c + 2) +:+ ":** " +:+ question,
           State.ASK_QUESTIONS S)) /\
  (Main.current_state st = State.GATHER_INFO S ->
   confirms user_input self = true ->
   forall tech_stack response parsed question rest,
     fst (fst (_extract_tech_stack_from_history B self)) = Ok tech_stack ->
     llm B (TECH_QUESTIONS_PROMPT_TEMPLATE (PyStr.join ", " tech_stack)) = Ok response ->
     assessment_parser B response = Ok parsed ->
     flatten (assessment parsed) = question :: rest ->
     exists self',
       process_user_input S B user_input (State.GATHER_INFO S) self =
         (Ok ("Excellent. We have " +:+ PyStr.of_nat (length (question :: rest)) +:+
              " questions. **Question 1:** " +:+ question,
              State.ASK_QUESTIONS S),
          self',
          [extraction_prompt (window self);
           TECH_QUESTIONS_PROMPT_TEMPLATE (PyStr.join ", " tech_stack)]) /\
       all_questions_list self' = question :: rest /\
       current_question_index self' = 1).
Proof.
  intros HS Hreach Hu self c. split.
  - intros question Hq Hne. rewrite (ask_eq S HS B user_input Hu). cbv zeta.
    fold self. fold c. rewrite Hq. cbn [fst].
    destruct question as [|ch question]; [congruence|]. cbn [PyStr.truthy].
    replace (c + 1 + 1) with (c + 2) by lia. reflexivity.
  - intros Hlabel Hc tech_stack response parsed question rest Hts Hgen Hparse Hflat.
    pose proof (reachable_inv S st HS Hreach) as [_ Hinv].
    pose proof (labels_ne S HS) as (N1 & N2 & N3 & N4 & N5 & N6).
    rewrite Hlabel in Hinv. fold self in Hinv.
    destruct Hinv as [(_ & Hq & Hi & _) | [(E & _) | E]]; try congruence.
    rewrite (confirm_run S HS B user_input Hu self Hc). cbv zeta.
    rewrite _extract_tech_stack_from_history_eq in Hts. cbv zeta in Hts.
    cbn [fst] in Hts. injection Hts as Hts. rewrite Hts, Hgen, Hparse.
    cbn [all_questions_list current_question_index set_all_questions_list
         set_tech_questions].
    rewrite Hq, Hi, Hflat. cbn [app lookup list_lookup].
    eexists. split; [reflexivity|]. split; reflexivity.
Qed.

Lemma question_numbering_witness :
  let st := Main.run State.main [(happy, "Ada"); (happy, "next")] in
  let st0 := Main.run State.main [(happy, "Ada")] in
  State.distinct State.main = true /\
  Main.reachable State.main st /\
  Main.reachable State.main st0 /\
  is_exit "a1" = false /\
  is_exit "next" = false /\
  all_questions_list (Main.agent st) !! 1 = Some "p2" /\
  "p2" <> EmptyString /\
  Main.current_state st0 = State.GATHER_INFO State.main /\
  confirms "next" (Main.agent st0) = true /\
  fst (fst (process_user_input State.main happy "a1"
              (State.ASK_QUESTIONS State.main) (Main.agent st))) =
    Ok ("Thank you for your answer. " +:+ PyStr.newline +:+ PyStr.newline +:+
        "**Question 3:** p2", "ASK_QUESTIONS") /\
  fst (fst (process_user_input State.main happy "next"
              (State.GATHER_INFO State.main) (Main.agent st0))) =
    Ok ("Excellent. We have 6 questions. **Question 1:** p1", "ASK_QUESTIONS").
Proof.
  intros st st0.
  assert (Hreach : Main.reachable State.main st) by (eexists; reflexivity).
  assert (Hreach0 : Main.reachable State.main st0) by (eexists; reflexivity).
  assert (Hne : "p2" <> EmptyString) by discriminate.
  split; [reflexivity|]. split; [exact Hreach|]. split; [exact Hreach0|].
  split; [reflexivity|]. split; [reflexivity|]. split; [reflexivity|].
  split; [exact Hne|]. split; [reflexivity|]. split; [reflexivity|].
  destruct (question_numbering State.main st happy "a1" eq_refl Hreach eq_refl)
    as [Hask _].
  destruct (question_numbering State.main st0 happy "next" eq_refl Hreach0 eq_refl)
    as [_ Hfirst].
  split; [exact (Hask "p2" eq_refl Hne)|].
  destruct (Hfirst eq_refl eq_refl ["Python"; "SQL"] "{...}" two_by_three
              "p1" ["p2"; "p3"; "s1"; "s2"; "s3"] eq_refl eq_refl eq_refl eq_refl)
    as (self' & Hrun & _).
  rewrite Hrun. reflexivity.
Defined.

(** The confirmation turn of the same session shows the first question of
    the queue as "Question 1". *)
Example first_question_is_number_one :
  fst (fst (process_user_input State.main happy "next"
              (State.GATHER_INFO State.main)
              (Main.agent (Main.run State.main [(happy, "Ada")])))) =
  Ok ("Excellent. We have 6 questions. **Question 1:** p1", "ASK_QUESTIONS").
Proof. reflexivity. Qed.

(** ** Assessment generation *)






(** ** Failures of assessment generation *)

(** A decoding failure is reported as [None], with nothing appended. *)
Lemma decode_failure_is_None B tech_stack self response e :
  llm B (TECH_QUESTIONS_PROMPT_TEMPLATE (PyStr.join ", " tech_stack)) = Ok response ->
  assessment_parser B response = Raise e ->
  _generate_technical_questions B tech_stack self =
  (Ok None, self, [TECH_QUESTIONS_PROMPT_TEMPLATE (PyStr.join ", " tech_stack)]).
Proof.
  intros Hgen Hparse. rewrite _generate_technical_questions_eq. cbv zeta.
  now rewrite Hgen, Hparse.
Qed.

(** An error of the model call itself is raised by the generator. *)
Lemma model_error_is_raised B tech_stack self e :
  llm B (TECH_QUESTIONS_PROMPT_TEMPLATE (PyStr.join ", " tech_stack)) = Raise e ->
  _generate_technical_questions B tech_stack self =
  (Raise e, self, [TECH_QUESTIONS_PROMPT_TEMPLATE (PyStr.join ", " tech_stack)]).
Proof.
  intros Hgen. rewrite _generate_technical_questions_eq. cbv zeta.
  now rewrite Hgen.
Qed.

(** At the confirmation turn of a session a decoding failure ends the
    conversation with the failure message, after one generation call. *)
Example decode_failure_ends_session :
  process_user_input State.main undecodable "next" (State.GATHER_INFO State.main)
    (Main.agent (Main.run State.main [(undecodable, "Ada")])) =
  (Ok ("I apologize, question generation failed. Ending conversation.", "END"),
   Main.agent (Main.run State.main [(undecodable, "Ada")]),
   [extraction_prompt (window (Main.agent (Main.run State.main [(undecodable, "Ada")])));
    TECH_QUESTIONS_PROMPT_TEMPLATE "Python, SQL"]).
Proof. reflexivity. Qed.

(** C5. When the model call of the generation fails, the generator does not
    return [None]: the exception leaves [_generate_technical_questions] and
    then [process_user_input]; no "question generation failed" reply and no
    label END are produced. *)
Theorem generation_model_error_escapes :
  let self := Main.agent (Main.run State.main [(generation_down, "Ada")]) in
  _generate_technical_questions generation_down ["Python"; "SQL"] self =
    (Raise (Exc "model unavailable"), self,
     [TECH_QUESTIONS_PROMPT_TEMPLATE "Python, SQL"]) /\
  confirms "next" self = true /\
  process_user_input State.main generation_down "next"
    (State.GATHER_INFO State.main) self =
    (Raise (Exc "model unavailable"), self,
     [extraction_prompt (window self); TECH_QUESTIONS_PROMPT_TEMPLATE "Python, SQL"]).
Proof. cbv zeta. repeat split; reflexivity. Qed.

(** ** Splitting and stripping *)

Lemma starts_with_prefix w : forall l,
  PyStr.starts_with w l = true <-> w `prefix_of` l.
Proof.
  induction w as [|a w IH]; intros l; cbn [PyStr.starts_with].
  - split; [intros _; now exists l | reflexivity].
  - destruct l as [|b l].
    + split; [discriminate | intros [r Hr]; discriminate].
    + rewrite andb_true_iff, IH. split.
      * intros [Hab [r ->]]. apply Ascii.eqb_eq in Hab as ->. now exists r.
      * intros [r Hr]. injection Hr as -> ->.
        split; [apply Ascii.eqb_refl | now exists r].
Qed.

Lemma chop_Some W l rest :
  PyStr.chop W l = Some rest -> exists w, In w W /\ l = w ++ rest.
Proof.
  induction W as [|w W IH]; cbn [PyStr.chop]; [discriminate|].
  destruct (PyStr.starts_with w l) eqn:E.
  - intros [= <-]. apply starts_with_prefix in E as [r ->].
    exists w. split; [now left|]. now rewrite drop_app_length.
  - intros H. destruct (IH H) as (w' & Hin & ->). exists w'. split; [now right | reflexivity].
Qed.

Lemma chop_None W l :
  PyStr.chop W l = None <-> forall w, In w W -> ~ w `prefix_of` l.
Proof.
  induction W as [|w W IH]; cbn [PyStr.chop].
  - split; [intros _ w [] | reflexivity].
  - destruct (PyStr.starts_with w l) eqn:E.
    + split; [discriminate|]. intros H. exfalso.
      apply (H w); [now left | now apply starts_with_prefix].
    + rewrite IH. split.
      * intros H w' [<-|Hin]; [|now apply H].
        intros Hp. apply starts_with_prefix in Hp. congruence.
      * intros H w' Hin. apply H. now right.
Qed.

Lemma lstrip_chars_suffix W n : forall l,
  exists p, l = p ++ PyStr.lstrip_chars W n l.
Proof.
  induction n as [|n IH]; intros l; cbn [PyStr.lstrip_chars]; [now exists []|].
  destruct (PyStr.chop W l) as [rest|] eqn:E; [|now exists []].
  apply chop_Some in E as (w & _ & ->). destruct (IH rest) as [p Hp].
  exists (w ++ p). rewrite <- app_assoc. now rewrite <- Hp.
Qed.

Lemma lstrip_chars_clean W n :
  (forall w, In w W -> w <> []) ->
  forall l, length l <= n ->
  forall w, In w W -> ~ w `prefix_of` PyStr.lstrip_chars W n l.
Proof.
  intros HW. induction n as [|n IH]; intros l Hlen w Hin;
    cbn [PyStr.lstrip_chars].
  - destruct l; [|cbn [length] in Hlen; lia].
    intros [r Hr]. symmetry in Hr. apply app_eq_nil in Hr as [-> _].
    now apply (HW []).
  - destruct (PyStr.chop W l) as [rest|] eqn:E.
    + apply IH; [|assumption]. apply chop_Some in E as (w' & Hin' & ->).
      rewrite length_app in Hlen. specialize (HW w' Hin').
      destruct w'; [congruence | cbn [length] in Hlen; lia].
    + now apply (proj1 (chop_None W l)).
Qed.

Lemma lstrip_chars_fixed W n l :
  (forall w, In w W -> ~ w `prefix_of` l) -> PyStr.lstrip_chars W n l = l.
Proof.
  intros H. apply chop_None in H. destruct n; cbn [PyStr.lstrip_chars];
    [reflexivity | now rewrite H].
Qed.

Lemma whitespace_nonempty w : In w PyStr.whitespace -> w <> [].
Proof.
  revert w. apply List.Forall_forall. vm_compute.
  repeat constructor; discriminate.
Qed.

Lemma rev_whitespace_nonempty w :
  In w (map (@rev ascii) PyStr.whitespace) -> w <> [].
Proof.
  intros Hin. apply in_map_iff in Hin as (w0 & <- & Hin0).
  apply whitespace_nonempty in Hin0. destruct w0; [congruence|].
  cbn [rev]. intros E. apply app_eq_nil in E as [_ E]. discriminate.
Qed.

(** Stripping a text: what is left has no whitespace character at either
    end, holds only bytes of the text, and is unchanged by stripping it
    again. *)
Lemma strip_list_clean l :
  let y := PyStr.rstrip_list (PyStr.lstrip_list l) in
  (forall w, In w PyStr.whitespace ->
     ~ w `prefix_of` y /\ ~ w `suffix_of` y) /\
  (forall c, In c y -> In c l) /\
  PyStr.rstrip_list (PyStr.lstrip_list y) = y.
Proof.
  cbv zeta. unfold PyStr.rstrip_list, PyStr.lstrip_list.
  set (x := PyStr.lstrip_chars PyStr.whitespace (length l) l).
  set (W' := map (@rev ascii) PyStr.whitespace).
  set (z := PyStr.lstrip_chars W' (length x) (rev x)).
  assert (Hx : forall w, In w PyStr.whitespace -> ~ w `prefix_of` x).
  { apply lstrip_chars_clean; [apply whitespace_nonempty | lia]. }
  assert (Hz : forall w, In w W' -> ~ w `prefix_of` z).
  { apply lstrip_chars_clean; [apply rev_whitespace_nonempty|].
    rewrite length_rev. lia. }
  destruct (lstrip_chars_suffix PyStr.whitespace (length l) l) as [p Hp].
  fold x in Hp.
  destruct (lstrip_chars_suffix W' (length x) (rev x)) as [q Hq]. fold z in Hq.
  assert (Hyx : x = rev z ++ rev q).
  { rewrite <- (rev_involutive x), Hq. apply rev_app_distr. }
  assert (Hclean : forall w, In w PyStr.whitespace ->
            ~ w `prefix_of` rev z /\ ~ w `suffix_of` rev z).
  { intros w Hin. split.
    - intros [r Hr]. apply (Hx w Hin). exists (r ++ rev q).
      rewrite Hyx, Hr. now rewrite <- app_assoc.
    - intros [r Hr]. apply (Hz (rev w)); [now apply in_map|].
      exists (rev r). rewrite <- (rev_involutive z), Hr. apply rev_app_distr. }
  split; [exact Hclean|]. split.
  - intros c Hc. rewrite Hp. apply in_or_app. right.
    rewrite Hyx. apply in_or_app. now left.
  - rewrite (lstrip_chars_fixed PyStr.whitespace _ (rev z));
      [|intros w Hin; apply (Hclean w Hin)].
    rewrite rev_involutive.
    rewrite (lstrip_chars_fixed W' _ z Hz). reflexivity.
Qed.

Lemma chars_strip s :
  chars (PyStr.strip s) = PyStr.rstrip_list (PyStr.lstrip_list (chars s)).
Proof.
  unfold chars, PyStr.strip, PyStr.rstrip, PyStr.lstrip.
  now rewrite !list_ascii_of_string_of_list_ascii.
Qed.

Lemma strip_clean t0 :
  PyStr.truthy (PyStr.strip t0) = true ->
  ~ In ","%char (chars t0) ->
  clean_token (PyStr.strip t0).
Proof.
  intros Htruthy Hcomma.
  destruct (strip_list_clean (chars t0)) as (Hends & Hsub & Hidem).
  cbv zeta in *. rewrite <- chars_strip in Hends, Hsub, Hidem.
  split; [|split; [exact Hends|split]].
  - intros E. rewrite E in Htruthy. discriminate.
  - rewrite <- (string_of_list_ascii_of_string (PyStr.strip (PyStr.strip t0))).
    fold (chars (PyStr.strip (PyStr.strip t0))). rewrite chars_strip, Hidem.
    apply string_of_list_ascii_of_string.
  - intros Hc. apply Hcomma. now apply Hsub.
Qed.

Lemma split_pieces sep s :
  Forall (fun piece => ~ In sep (chars piece)) (PyStr.split sep s).
Proof.
  induction s as [|c s IH]; cbn [PyStr.split].
  - constructor; [intros [] | constructor].
  - destruct (Ascii.eqb_spec c sep) as [->|Hne].
    + constructor; [intros [] | exact IH].
    + destruct (PyStr.split sep s) as [|h t].
      * constructor; [|constructor]. intros [H|[]]. congruence.
      * inversion IH as [|? ? Hh Ht]; subst. constructor; [|exact Ht].
        intros [H|H]; [congruence | now apply Hh].
Qed.

Lemma parsed_tokens_clean response :
  Forall clean_token
    (map PyStr.strip
       (List.filter (fun t => PyStr.truthy (PyStr.strip t))
          (PyStr.split "," response))).
Proof.
  apply List.Forall_forall. intros t Ht.
  apply in_map_iff in Ht as (t0 & <- & Ht0).
  apply filter_In in Ht0 as [Hin Htruthy].
  apply strip_clean; [exact Htruthy|].
  pose proof (split_pieces "," response) as Hall.
  rewrite List.Forall_forall in Hall. exact (Hall t0 Hin).
Qed.

Lemma fallback_clean : Forall clean_token ["Python"; "SQL"].
Proof.
  apply List.Forall_cons; [|apply List.Forall_cons; [|apply List.Forall_nil]].
  - change "Python" with (PyStr.strip "Python").
    apply strip_clean; [reflexivity|]. cbn. intuition discriminate.
  - change "SQL" with (PyStr.strip "SQL").
    apply strip_clean; [reflexivity|]. cbn. intuition discriminate.
Qed.

(** X1. Whatever the model does on the extraction call,
    [_extract_tech_stack_from_history] returns a list: it sends exactly the
    extraction prompt, raises nothing and leaves the object as it was; every
    technology it returns is non-empty, neither begins nor ends with a
    whitespace character (ASCII or not), is unchanged by [strip], and
    contains no comma. *)
Theorem extraction_total_and_clean (B : Backend) (self : TalentScoutAssistant) :
  exists tech_stack,
    _extract_tech_stack_from_history B self =
      (Ok tech_stack, self, [extraction_prompt (window self)]) /\
    Forall clean_token tech_stack.
Proof.
  rewrite _extract_tech_stack_from_history_eq. cbv zeta.
  eexists. split; [reflexivity|].
  destruct (llm B _) as [response|e].
  - apply parsed_tokens_clean.
  - apply fallback_clean.
Qed.

(** Blanks and empty pieces of the model's reply are dropped. *)
Example extraction_drops_blanks :
  fst (fst (_extract_tech_stack_from_history short init)) = Ok ["Python"].
Proof. reflexivity. Qed.

(** So is a piece made of non-ASCII whitespace. *)
Example extraction_drops_no_break_space :
  fst (fst (_extract_tech_stack_from_history spaced init)) = Ok ["Python"; "SQL"].
Proof. reflexivity. Qed.

(** An empty input takes no turn of the session. *)
Example empty_input_takes_no_turn :
  Main.run State.main [(happy, "Ada"); (happy, EmptyString)] =
  Main.run State.main [(happy, "Ada")].
Proof. reflexivity. Qed.

(** ** A turn, state by state *)

Lemma other_eq S B user_input current_state self :
  is_exit user_input = false ->
  current_state <> State.GREETING S ->
  current_state <> State.GATHER_INFO S ->
  current_state <> State.ASK_QUESTIONS S ->
  process_user_input S B user_input current_state self =
  (Ok (not_understood, current_state), self, []).
Proof.
  intros Hu H1 H2 H3. unfold process_user_input. unfold is_exit in Hu.
  rewrite Hu.
  rewrite (proj2 (String.eqb_neq _ _) H1), (proj2 (String.eqb_neq _ _) H2),
    (proj2 (String.eqb_neq _ _) H3).
  reflexivity.
Qed.

Lemma chat_run B user_input (label : string) self :
  (response <- info_chain_run B user_input ;; ret (response, label)) self =
  match llm B (INFO_GATHERING_PROMPT (window self) user_input) with
  | Ok text =>
      (Ok (text, label),
       set_memory (memory self ++ [HumanMessage user_input; AIMessage text]) self,
       [INFO_GATHERING_PROMPT (window self) user_input])
  | Raise e => (Raise e, self, [INFO_GATHERING_PROMPT (window self) user_input])
  end.
Proof.
  unfold bind. rewrite info_chain_run_eq. cbv zeta.
  destruct (llm B _); reflexivity.
Qed.

(** The turn rewritten to what its branch computes: exit word, GREETING,
    GATHER_INFO confirming, GATHER_INFO gathering, ASK_QUESTIONS, any other
    label. *)
Ltac split_turn S HS B u s self :=
  let Hu := fresh "Hu" in
  let Hc := fresh "Hc" in
  let Hn1 := fresh "Hn" in
  let Hn2 := fresh "Hn" in
  let Hn3 := fresh "Hn" in
  destruct (is_exit u) eqn:Hu;
  [ rewrite (exit_eq S B u s self Hu)
  | destruct (String.eqb_spec s (State.GREETING S)) as [->|Hn1];
    [ rewrite (greeting_eq S HS B u Hu self), chat_run
    | destruct (String.eqb_spec s (State.GATHER_INFO S)) as [->|Hn2];
      [ destruct (confirms u self) eqn:Hc;
        [ rewrite (confirm_run S HS B u Hu self Hc); cbv zeta
        | rewrite (gather_eq S HS B u Hu self Hc), chat_run ]
      | destruct (String.eqb_spec s (State.ASK_QUESTIONS S)) as [->|Hn3];
        [ rewrite (ask_eq S HS B u Hu self); cbv zeta
        | rewrite (other_eq S B u s self Hu Hn1 Hn2 Hn3) ] ] ] ].

Ltac fields :=
  cbn [memory tech_questions current_question_index all_questions_list
       user_answers set_memory set_tech_questions set_current_question_index
       set_all_questions_list set_user_answers fst snd] in *.

Lemma grows_refl self : grows self self.
Proof. unfold grows. repeat split; reflexivity. Qed.

(** X2. Whatever the state label, the input and the collaborators do, a
    call of [process_user_input] only extends the object: the stored
    messages and the question queue keep what they held as a prefix, the
    cursor does not decrease, and no recorded answer key disappears. *)
Theorem turn_grows (S : State.t) (B : Backend) (user_input current_state : string)
    (self : TalentScoutAssistant) :
  State.distinct S = true ->
  grows self (snd (fst (process_user_input S B user_input current_state self))).
Proof.
  intros HS.
  split_turn S HS B user_input current_state self;
    repeat case_match; fields; try apply grows_refl;
    unfold grows; fields;
    repeat split; try reflexivity; try (apply prefix_app_r; reflexivity);
    try lia; try set_solver.
Qed.

Lemma turn_grows_witness :
  let self := Main.agent (Main.run State.main [(happy, "Ada"); (happy, "next")]) in
  State.distinct State.main = true /\
  grows self
    (snd (fst (process_user_input State.main happy "a1"
                 (State.ASK_QUESTIONS State.main) self))).
Proof.
  intros self. split; [reflexivity|].
  exact (turn_grows State.main happy "a1" (State.ASK_QUESTIONS State.main) self
           eq_refl).
Defined.

(** X3. A call of [process_user_input] sends at most two prompts to the
    model; it sends none on an exit word or when the label is neither
    GREETING nor GATHER_INFO (so answering questions never reaches the
    model); and every history a prompt carries is the window of the
    object's memory as the call found it: its most recent messages, at
    most 2 * 8 of them. *)
Theorem turn_prompts (S : State.t) (B : Backend) (user_input current_state : string)
    (self : TalentScoutAssistant) :
  State.distinct S = true ->
  let sent := snd (process_user_input S B user_input current_state self) in
  length sent <= 2 /\
  (is_exit user_input = true \/
   (current_state <> State.GREETING S /\ current_state <> State.GATHER_INFO S) ->
   sent = []) /\
  (forall p history, In p sent -> history_of p = Some history ->
     history = window self /\
     history `suffix_of` memory self /\
     length history <= 2 * k).
Proof.
  intros HS. cbv zeta.
  assert (Hw : forall history, history = window self ->
            history = window self /\ history `suffix_of` memory self /\
            length history <= 2 * k).
  { intros history ->. split; [reflexivity|]. unfold window.
    split; [apply suffix_drop | rewrite length_drop; lia]. }
  split_turn S HS B user_input current_state self;
    repeat case_match; cbn [snd length];
    (split; [lia|]);
    (split; [intros [?|[? ?]]; try reflexivity; congruence|]);
    intros p history Hin Hh; apply Hw; cbn [In] in Hin;
    repeat (destruct Hin as [<-|Hin]; [cbn in Hh; congruence|]);
    destruct Hin.
Qed.

Lemma turn_prompts_witness :
  let self := Main.agent (Main.run State.main [(happy, "Ada")]) in
  State.distinct State.main = true /\
  length (snd (process_user_input State.main happy "next"
                 (State.GATHER_INFO State.main) self)) = 2 /\
  snd (process_user_input State.main happy "a1"
         (State.ASK_QUESTIONS State.main) self) = [].
Proof.
  intros self. split; [reflexivity|]. split; [reflexivity|].
  destruct (turn_prompts State.main happy "a1" (State.ASK_QUESTIONS State.main)
              self eq_refl) as (_ & Hnone & _).
  apply Hnone. right. split; discriminate.
Defined.

(** X4. When [process_user_input] raises, the exception is the one the
    model raised on the last prompt sent, that prompt is not the extraction
    prompt, and the object is exactly as it was before the call. *)
Theorem raise_is_model_error (S : State.t) (B : Backend)
    (user_input current_state : string) (self self' : TalentScoutAssistant)
    (e : Exception) (sent : list Prompt) :
  State.distinct S = true ->
  process_user_input S B user_input current_state self = (Raise e, self', sent) ->
  self' = self /\
  exists p, last sent = Some p /\ llm B p = Raise e /\ is_extraction p = false.
Proof.
  intros HS.
  split_turn S HS B user_input current_state self;
    repeat case_match; intros [= <- <- <-];
    (split; [reflexivity|]);
    eexists; (split; [reflexivity|]); (split; [eassumption | reflexivity]).
Qed.

Lemma raise_is_model_error_witness :
  let self := Main.agent (Main.run State.main [(happy, "Ada")]) in
  State.distinct State.main = true /\
  process_user_input State.main generation_down "next"
    (State.GATHER_INFO State.main) self =
    (Raise (Exc "model unavailable"), self,
     [extraction_prompt (window self); TECH_QUESTIONS_PROMPT_TEMPLATE "Python, SQL"]) /\
  exists p,
    last [extraction_prompt (window self);
          TECH_QUESTIONS_PROMPT_TEMPLATE "Python, SQL"] = Some p /\
    llm generation_down p = Raise (Exc "model unavailable") /\
    is_extraction p = false.
Proof.
  intros self.
  assert (Hrun : process_user_input State.main generation_down "next"
                   (State.GATHER_INFO State.main) self =
                 (Raise (Exc "model unavailable"), self,
                  [extraction_prompt (window self);
                   TECH_QUESTIONS_PROMPT_TEMPLATE "Python, SQL"]))
    by reflexivity.
  split; [reflexivity|]. split; [exact Hrun|].
  exact (proj2 (raise_is_model_error State.main generation_down "next"
                  (State.GATHER_INFO State.main) self self _ _ eq_refl Hrun)).
Defined.

(** X5. The label a call returns follows the state graph: END from
    anywhere, GATHER_INFO from GREETING, GATHER_INFO or ASK_QUESTIONS from
    GATHER_INFO, ASK_QUESTIONS from ASK_QUESTIONS, and a label that is none
    of these three is handed back unchanged.  In particular no call leads
    back to GREETING or from ASK_QUESTIONS to GATHER_INFO. *)
Theorem turn_follows_edge (S : State.t) (B : Backend)
    (user_input current_state : string) (self : TalentScoutAssistant)
    (reply next_state : string) :
  State.distinct S = true ->
  fst (fst (process_user_input S B user_input current_state self)) =
    Ok (reply, next_state) ->
  edge S current_state next_state.
Proof.
  intros HS.
  split_turn S HS B user_input current_state self;
    repeat case_match; cbn [fst]; intros [= <- <-] || intros [=];
    unfold edge; tauto.
Qed.

Lemma turn_follows_edge_witness :
  let self := Main.agent (Main.run State.main [(happy, "Ada")]) in
  State.distinct State.main = true /\
  fst (fst (process_user_input State.main happy "next"
              (State.GATHER_INFO State.main) self)) =
    Ok ("Excellent. We have 6 questions. **Question 1:** p1", "ASK_QUESTIONS") /\
  edge State.main "GATHER_INFO" "ASK_QUESTIONS".
Proof.
  intros self. split; [reflexivity|]. split; [reflexivity|].
  exact (turn_follows_edge State.main happy "next" (State.GATHER_INFO State.main)
           self _ _ eq_refl eq_refl).
Defined.

(** X6. What a call leaves alone: the memory changes only under the labels
    GREETING and GATHER_INFO, the question queue and the stored assessment
    only under GATHER_INFO, the answers only under ASK_QUESTIONS, the cursor
    only under GATHER_INFO and ASK_QUESTIONS; an exit word, or a label that
    is none of the three, changes nothing at all. *)
Theorem turn_frame (S : State.t) (B : Backend) (user_input current_state : string)
    (self : TalentScoutAssistant) :
  State.distinct S = true ->
  let self' := snd (fst (process_user_input S B user_input current_state self)) in
  (current_state <> State.GREETING S -> current_state <> State.GATHER_INFO S ->
   memory self' = memory self) /\
  (current_state <> State.GATHER_INFO S ->
   all_questions_list self' = all_questions_list self /\
   tech_questions self' = tech_questions self) /\
  (current_state <> State.ASK_QUESTIONS S ->
   user_answers self' = user_answers self) /\
  (current_state <> State.GATHER_INFO S -> current_state <> State.ASK_QUESTIONS S ->
   current_question_index self' = current_question_index self) /\
  (is_exit user_input = true \/
   (current_state <> State.GREETING S /\ current_state <> State.GATHER_INFO S /\
    current_state <> State.ASK_QUESTIONS S) -> self' = self).
Proof.
  intros HS. cbv zeta.
  pose proof (labels_ne S HS) as (N1 & N2 & N3 & N4 & N5 & N6).
  split_turn S HS B user_input current_state self;
    repeat case_match; fields;
    repeat split; intros; try reflexivity; try congruence;
    intuition congruence.
Qed.

Lemma turn_frame_witness :
  let self := Main.agent (Main.run State.main [(happy, "Ada"); (happy, "next")]) in
  let self' := snd (fst (process_user_input State.main happy "a1"
                           (State.ASK_QUESTIONS State.main) self)) in
  State.distinct State.main = true /\
  memory self' = memory self /\
  all_questions_list self' = all_questions_list self.
Proof.
  intros self self'. split; [reflexivity|].
  destruct (turn_frame State.main happy "a1" (State.ASK_QUESTIONS State.main)
              self eq_refl) as (Hm & Hq & _).
  split; [apply Hm; discriminate | apply Hq; discriminate].
Defined.

(** X7. Under the label GREETING a non-exit input is not inspected: the
    call is one chat call on the current window.  When the model replies,
    the reply is returned with the label GATHER_INFO and the user text and
    the reply are appended to the memory, in this order, nothing else
    changing; when the model raises, the exception escapes and the object
    is unchanged. *)
Theorem greeting_turn (S : State.t) (B : Backend) (user_input : string)
    (self : TalentScoutAssistant) :
  State.distinct S = true ->
  is_exit user_input = false ->
  process_user_input S B user_input (State.GREETING S) self =
  match llm B (INFO_GATHERING_PROMPT (window self) user_input) with
  | Ok text =>
      (Ok (text, State.GATHER_INFO S),
       {| memory := memory self ++ [HumanMessage user_input; AIMessage text];
          tech_questions := tech_questions self;
          current_question_index := current_question_index self;
          all_questions_list := all_questions_list self;
          user_answers := user_answers self |},
       [INFO_GATHERING_PROMPT (window self) user_input])
  | Raise e => (Raise e, self, [INFO_GATHERING_PROMPT (window self) user_input])
  end.
Proof.
  intros HS Hu. rewrite (greeting_eq S HS B user_input Hu self), chat_run.
  reflexivity.
Qed.

Lemma greeting_turn_witness :
  State.distinct State.main = true /\
  is_exit "next" = false /\
  process_user_input State.main happy "next" (State.GREETING State.main) init =
    (Ok (marker_reply, "GATHER_INFO"),
     {| memory := [HumanMessage "next"; AIMessage marker_reply];
        tech_questions := None;
        current_question_index := 0;
        all_questions_list := [];
        user_answers := ∅ |},
     [INFO_GATHERING_PROMPT [] "next"]).
Proof.
  split; [reflexivity|]. split; [reflexivity|].
  exact (greeting_turn State.main happy "next" init eq_refl eq_refl).
Defined.

(** ** Sessions *)

Lemma resume_app S turns1 turns2 st :
  resume S (turns1 ++ turns2) st = resume S turns2 (resume S turns1 st).
Proof. unfold resume. apply fold_left_app. Qed.

Lemma run_resume S turns :
  Main.run S turns = resume S turns (Main.initialize_session_state S).
Proof. reflexivity. Qed.

(** X8. Once the session label is END, submitted inputs are not taken: any
    further sequence of inputs leaves the label and the assistant object
    exactly as they are. *)
Theorem session_END_final (S : State.t) (turns : list (Backend * string))
    (st : Main.session_state) :
  Main.current_state st = State.END S ->
  resume S turns st = st.
Proof.
  intros Hend. unfold resume.
  induction turns as [|[B user_input] turns IH]; [reflexivity|].
  cbn [fold_left fst snd]. unfold Main.main at 2.
  rewrite Hend, String.eqb_refl. cbn [negb]. exact IH.
Qed.

Lemma session_END_final_witness :
  let st := Main.run State.main
              [(happy, "Ada"); (happy, "next"); (happy, "quit")] in
  Main.current_state st = State.END State.main /\
  resume State.main [(happy, "a1"); (chat_down, "hello")] st = st.
Proof.
  intros st. split; [reflexivity|].
  exact (session_END_final State.main [(happy, "a1"); (chat_down, "hello")] st
           eq_refl).
Defined.

Lemma paired_even : forall l, paired l -> Nat.Even (length l).
Proof.
  fix IH 1. intros [|[h|a] [|[h'|a'] l]]; cbn [paired length]; try tauto.
  - intros _. exists 0. reflexivity.
  - intros Hl. destruct (IH l Hl) as [n Hn]. exists (S n). lia.
Qed.

(** X9. In every state a session can reach, the memory is a sequence of
    user turn / assistant turn pairs: its length is even and its last
    message, if any, is an assistant turn. *)
Theorem session_memory_alternates (S : State.t) (st : Main.session_state) :
  State.distinct S = true ->
  Main.reachable S st ->
  paired (memory (Main.agent st)) /\
  Nat.Even (length (memory (Main.agent st))) /\
  (forall m, last (memory (Main.agent st)) = Some m -> is_ai m = true).
Proof.
  intros HS Hreach. destruct (reachable_inv S st HS Hreach) as [Hp _].
  split; [exact Hp|]. split; [now apply paired_even|].
  intros m. now apply paired_last.
Qed.

Lemma session_memory_alternates_witness :
  let st := Main.run State.main [(chatty, "Ada"); (chatty, "ada@example.org")] in
  State.distinct State.main = true /\
  Main.reachable State.main st /\
  length (memory (Main.agent st)) = 4 /\
  Nat.Even (length (memory (Main.agent st))).
Proof.
  intros st.
  assert (Hreach : Main.reachable State.main st) by (eexists; reflexivity).
  split; [reflexivity|]. split; [exact Hreach|]. split; [reflexivity|].
  exact (proj1 (proj2 (session_memory_alternates State.main st eq_refl Hreach))).
Defined.

Lemma main_preserves_bounds S B user_input st :
  State.distinct S = true ->
  session_inv S st -> session_bounds S st ->
  session_bounds S (Main.main S B user_input st).
Proof.
  intros HS [_ Hinv] Hb.
  pose proof (labels_ne S HS) as (N1 & N2 & N3 & N4 & N5 & N6).
  unfold Main.main.
  destruct (String.eqb_spec (Main.current_state st) (State.END S)) as [|Hne];
    cbn [negb]; [assumption|].
  destruct (PyStr.truthy user_input); [|assumption].
  destruct st as [self label]. unfold session_bounds in *.
  cbn [Main.agent Main.current_state] in *.
  destruct Hb as (Hlabel & Hle & Hsize & Hask & Hpre).
  destruct (is_exit user_input) eqn:Hu.
  { rewrite (exit_eq S B user_input label self Hu).
    cbn [Main.agent Main.current_state].
    repeat split; try assumption; try tauto; intros; intuition congruence. }
  destruct Hinv as [([-> | ->] & Hq & Hi & Ha) | [(-> & Hi & Hbelow) | ->]];
    [ | | | contradiction].
  - destruct Hpre as [Htq _]; [tauto|].
    rewrite (greeting_eq S HS B user_input Hu self), chat_run.
    destruct (llm B _) as [text|e]; cbn [Main.agent Main.current_state]; fields;
      repeat split; try assumption; try tauto; intros; intuition congruence.
  - destruct Hpre as [Htq _]; [tauto|].
    destruct (confirms user_input self) eqn:Hc.
    + rewrite (confirm_run S HS B user_input Hu self Hc). cbv zeta.
      destruct (llm B (TECH_QUESTIONS_PROMPT_TEMPLATE _)) as [response|e].
      * destruct (assessment_parser B response) as [parsed|e]; fields;
          rewrite ?Hq, ?Hi; cbn [app].
        -- destruct (flatten (assessment parsed)) as [|q0 l0];
             cbn [lookup list_lookup Main.agent Main.current_state]; fields;
             rewrite ?Ha, ?map_size_empty; cbn [length];
             repeat split; try lia; try tauto; intros; intuition congruence.
        -- cbn [Main.agent Main.current_state]. rewrite ?Hq, ?Hi, ?Ha.
           rewrite ?map_size_empty. cbn [length].
           repeat split; try lia; try tauto; intros; intuition congruence.
      * cbn [Main.agent Main.current_state].
        repeat split; try assumption; try tauto; intros; intuition congruence.
    + rewrite (gather_eq S HS B user_input Hu self Hc), chat_run.
      destruct (llm B _) as [text|e]; cbn [Main.agent Main.current_state]; fields;
        repeat split; try assumption; try tauto; intros; intuition congruence.
  - specialize (Hask eq_refl).
    assert (Hfresh : user_answers self !!
                       answer_key (current_question_index self) = None).
    { destruct (user_answers self !! answer_key (current_question_index self))
        as [v|] eqn:Ek; [|reflexivity].
      destruct (Hbelow (answer_key (current_question_index self)))
        as (i & Hlt & Ei); [now rewrite Ek|].
      apply answer_key_inj in Ei. lia. }
    rewrite (ask_eq S HS B user_input Hu self). cbv zeta.
    destruct (all_questions_list self !! current_question_index self)
      as [question|] eqn:El.
    + apply lookup_lt_Some in El.
      destruct (PyStr.truthy question); cbn [Main.agent Main.current_state];
        fields; rewrite (map_size_insert_None _ _ _ Hfresh);
        repeat split; try lia; try tauto; intros; intuition congruence.
    + cbn [Main.agent Main.current_state]; fields.
      rewrite (map_size_insert_None _ _ _ Hfresh).
      repeat split; try lia; try tauto; intros; intuition congruence.
Qed.

Lemma init_bounds S :
  State.distinct S = true -> session_bounds S (Main.initialize_session_state S).
Proof.
  intros HS. pose proof (labels_ne S HS) as (N1 & N2 & N3 & N4 & N5 & N6).
  unfold session_bounds, Main.initialize_session_state.
  cbn [Main.agent Main.current_state]. unfold init. fields.
  rewrite ?map_size_empty. cbn [length].
  repeat split; try lia; try tauto; intros; try intuition congruence.
Qed.

(** X10. In every state a session can reach: the label is one of the four
    state labels; the cursor never exceeds the queue length; there are
    never more recorded answers than the cursor, hence than questions; in
    ASK_QUESTIONS exactly cursor - 1 answers are recorded; and in GREETING
    and GATHER_INFO no assessment is stored and the queue is empty. *)
Theorem session_keeps_bounds (S : State.t) (st : Main.session_state) :
  State.distinct S = true ->
  Main.reachable S st ->
  session_bounds S st.
Proof.
  intros HS [turns <-].
  induction turns as [|[B user_input] turns IH] using rev_ind.
  - now apply init_bounds.
  - rewrite run_snoc. apply main_preserves_bounds; [assumption | | assumption].
    apply reachable_inv; [assumption | now exists turns].
Qed.

Lemma session_keeps_bounds_witness :
  let st := Main.run State.main
              [(happy, "Ada"); (happy, "next"); (happy, "a1"); (happy, "a2")] in
  State.distinct State.main = true /\
  Main.reachable State.main st /\
  Main.current_state st = State.ASK_QUESTIONS State.main /\
  current_question_index (Main.agent st) = 3 /\
  size (user_answers (Main.agent st)) + 1 = current_question_index (Main.agent st).
Proof.
  intros st.
  assert (Hreach : Main.reachable State.main st) by (eexists; reflexivity).
  split; [reflexivity|]. split; [exact Hreach|]. split; [reflexivity|].
  split; [reflexivity|].
  destruct (session_keeps_bounds State.main st eq_refl Hreach)
    as (_ & _ & _ & Hask & _).
  apply Hask. reflexivity.
Defined.

Lemma resume_cons S B user_input turns st :
  resume S ((B, user_input) :: turns) st =
  resume S turns (Main.main S B user_input st).
Proof. reflexivity. Qed.

Lemma main_ask S B user_input self :
  State.distinct S = true ->
  is_exit user_input = false ->
  PyStr.truthy user_input = true ->
  Main.main S B user_input
    {| Main.agent := self; Main.current_state := State.ASK_QUESTIONS S |} =
  let c := current_question_index self in
  let self1 :=
    set_user_answers (<[answer_key c := user_input]> (user_answers self)) self in
  match all_questions_list self !! c with
  | Some question =>
      {| Main.agent := set_current_question_index (c + 1) self1;
         Main.current_state :=
           if PyStr.truthy question then State.ASK_QUESTIONS S else State.END S |}
  | None => {| Main.agent := self1; Main.current_state := State.END S |}
  end.
Proof.
  intros HS Hu Ht. pose proof (labels_ne S HS) as (N1 & N2 & N3 & N4 & N5 & N6).
  unfold Main.main. cbn [Main.agent Main.current_state].
  rewrite (proj2 (String.eqb_neq _ _) (not_eq_sym N6)), Ht. cbn [negb].
  rewrite (ask_eq S HS B user_input Hu self). cbv zeta.
  destruct (all_questions_list self !! current_question_index self)
    as [question|]; [|reflexivity].
  destruct (PyStr.truthy question); reflexivity.
Qed.

Lemma completes_aux S (HS : State.distinct S = true) :
  forall turns st,
    Main.current_state st = State.ASK_QUESTIONS S ->
    current_question_index (Main.agent st) <=
      length (all_questions_list (Main.agent st)) ->
    Forall (fun question => question <> EmptyString)
      (all_questions_list (Main.agent st)) ->
    Forall (fun t : Backend * string =>
              snd t <> EmptyString /\ is_exit (snd t) = false) turns ->
    length turns =
      length (all_questions_list (Main.agent st)) -
      current_question_index (Main.agent st) + 1 ->
    let st' := resume S turns st in
    Main.current_state st' = State.END S /\
    (forall n, n < length turns ->
       Main.current_state (resume S (take n turns) st) = State.ASK_QUESTIONS S) /\
    all_questions_list (Main.agent st') = all_questions_list (Main.agent st) /\
    (forall j t, turns !! j = Some t ->
       user_answers (Main.agent st') !!
         answer_key (current_question_index (Main.agent st) + j) = Some (snd t)) /\
    (forall i, i < current_question_index (Main.agent st) ->
       user_answers (Main.agent st') !! answer_key i =
       user_answers (Main.agent st) !! answer_key i).
Proof.
  induction turns as [|[B user_input] turns IH];
    intros [self label] Hlabel Hle Hq Hall Hlen;
    cbn [Main.agent Main.current_state] in *; [cbn [length] in Hlen; lia|].
  subst label. inversion Hall as [|? ? [Hne0 Hu] Hall']; subst.
  cbn [snd] in Hne0, Hu.
  assert (Ht : PyStr.truthy user_input = true)
    by (destruct user_input; [congruence | reflexivity]).
  cbv zeta. rewrite resume_cons.
  pose proof (main_ask S B user_input self HS Hu Ht) as Hstep. cbv zeta in Hstep.
  set (c := current_question_index self) in *.
  cbn [length] in Hlen.
  destruct (all_questions_list self !! c) as [question|] eqn:El.
  - pose proof (lookup_lt_Some _ _ _ El) as Hlt.
    assert (Hne : question <> EmptyString).
    { rewrite List.Forall_forall in Hq. apply Hq.
      apply list_elem_of_In. now apply (list_elem_of_lookup_2 _ c). }
    destruct question as [|ch question]; [congruence|].
    cbn [PyStr.truthy] in Hstep.
    set (st1 := Main.main S B user_input _) in *.
    assert (Hc1 : current_question_index (Main.agent st1) = c + 1)
      by now rewrite Hstep.
    assert (Hq1 : all_questions_list (Main.agent st1) = all_questions_list self)
      by now rewrite Hstep.
    assert (Ha1 : user_answers (Main.agent st1) =
                  <[answer_key c := user_input]> (user_answers self))
      by now rewrite Hstep.
    destruct (IH st1) as (Hend & Hpre & Hqueue & Hans & Hframe).
    { now rewrite Hstep. }
    { rewrite Hc1, Hq1. lia. }
    { now rewrite Hq1. }
    { assumption. }
    { rewrite Hc1, Hq1. lia. }
    rewrite Hc1 in Hans, Hframe. rewrite Hq1 in Hqueue. rewrite Ha1 in Hframe.
    split; [exact Hend|]. split; [|split; [exact Hqueue|split]].
    + intros [|n] Hn; [reflexivity|]. cbn [take]. rewrite resume_cons.
      apply Hpre. cbn [length] in Hn. lia.
    + intros [|j] t Hj.
      * cbn in Hj. injection Hj as <-. cbn [snd].
        replace (c + 0) with c by lia.
        rewrite Hframe by lia. apply lookup_insert_eq.
      * cbn in Hj. replace (c + Datatypes.S j) with (c + 1 + j) by lia. now apply Hans.
    + intros i Hi. rewrite Hframe by lia. apply lookup_insert_ne.
      intros E. apply answer_key_inj in E. lia.
  - pose proof (lookup_ge_None_1 _ _ El) as Hge.
    assert (turns = []) by (destruct turns; [reflexivity | cbn [length] in Hlen; lia]).
    subst turns. cbn [resume fold_left]. rewrite Hstep.
    cbn [Main.agent Main.current_state]. fields.
    split; [reflexivity|]. split; [|split; [reflexivity|split]].
    + intros [|n] Hn; [reflexivity | cbn [length] in Hn; lia].
    + intros [|j] t Hj; [|destruct j; discriminate].
      cbn in Hj. injection Hj as <-. cbn [snd].
      replace (c + 0) with c by lia. apply lookup_insert_eq.
    + intros i Hi. apply lookup_insert_ne.
      intros E. apply answer_key_inj in E. lia.
Qed.

(** X11. A session in ASK_QUESTIONS with cursor c over a queue of L
    non-empty questions, given L - c + 1 further inputs, each non-empty and
    not an exit word, stays in ASK_QUESTIONS until the last of them and is
    at END after it; the queue is unchanged, and these inputs are recorded
    in order under the keys Q{c}, Q{c+1}, ..., Q{L}: the input at position
    j, counting from 0, under Q{c+j}. *)
Theorem questionnaire_completes (S : State.t) (turns : list (Backend * string))
    (st : Main.session_state) :
  State.distinct S = true ->
  Main.current_state st = State.ASK_QUESTIONS S ->
  current_question_index (Main.agent st) <=
    length (all_questions_list (Main.agent st)) ->
  Forall (fun question => question <> EmptyString)
    (all_questions_list (Main.agent st)) ->
  Forall (fun t : Backend * string =>
            snd t <> EmptyString /\ is_exit (snd t) = false) turns ->
  length turns =
    length (all_questions_list (Main.agent st)) -
    current_question_index (Main.agent st) + 1 ->
  let st' := resume S turns st in
  Main.current_state st' = State.END S /\
  (forall n, n < length turns ->
     Main.current_state (resume S (take n turns) st) = State.ASK_QUESTIONS S) /\
  all_questions_list (Main.agent st') = all_questions_list (Main.agent st) /\
  (forall j t, turns !! j = Some t ->
     user_answers (Main.agent st') !!
       ("Q" +:+ PyStr.of_nat (current_question_index (Main.agent st) + j)) =
     Some (snd t)).
Proof.
  intros HS Hlabel Hle Hq Hall Hlen.
  destruct (completes_aux S HS turns st Hlabel Hle Hq Hall Hlen)
    as (Hend & Hpre & Hqueue & Hans & _).
  repeat split; assumption.
Qed.

Lemma questionnaire_completes_witness :
  let st := Main.run State.main [(short, "Ada"); (short, "next")] in
  let turns := [(short, "a1"); (short, "a2"); (short, "a3")] in
  State.distinct State.main = true /\
  Main.current_state st = State.ASK_QUESTIONS State.main /\
  current_question_index (Main.agent st) <=
    length (all_questions_list (Main.agent st)) /\
  Forall (fun question => question <> EmptyString)
    (all_questions_list (Main.agent st)) /\
  Forall (fun t : Backend * string =>
            snd t <> EmptyString /\ is_exit (snd t) = false) turns /\
  length turns =
    length (all_questions_list (Main.agent st)) -
    current_question_index (Main.agent st) + 1 /\
  Main.current_state (resume State.main turns st) = State.END State.main /\
  user_answers (Main.agent (resume State.main turns st)) !! "Q3" = Some "a3".
Proof.
  intros st turns.
  assert (Hle : current_question_index (Main.agent st) <=
                length (all_questions_list (Main.agent st)))
    by (vm_compute; lia).
  assert (Hq : Forall (fun question => question <> EmptyString)
                 (all_questions_list (Main.agent st)))
    by (repeat constructor; discriminate).
  assert (Hall : Forall (fun t : Backend * string =>
                            snd t <> EmptyString /\ is_exit (snd t) = false) turns)
    by (repeat constructor; discriminate).
  split; [reflexivity|]. split; [reflexivity|]. split; [exact Hle|].
  split; [exact Hq|]. split; [exact Hall|]. split; [reflexivity|].
  destruct (questionnaire_completes State.main turns st eq_refl eq_refl Hle Hq Hall
              eq_refl) as (Hend & _ & _ & Hans).
  split; [exact Hend|].
  exact (Hans 2 (short, "a3") eq_refl).
Defined.

(** X12. At the confirmation turn of a session, when the model answers
    the generation call but no question comes out of it (the decoder
    rejects the answer, or accepts an assessment without any question), the
    reply is the "question generation failed" message and the label is END;
    the queue stays empty, the cursor stays 0, and the memory and the
    answers are untouched. *)
Theorem no_questions_ends_session (S : State.t) (st : Main.session_state)
    (B : Backend) (user_input : string) (tech_stack : list string)
    (response : string) :
  State.distinct S = true ->
  Main.reachable S st ->
  Main.current_state st = State.GATHER_INFO S ->
  is_exit user_input = false ->
  confirms user_input (Main.agent st) = true ->
  fst (fst (_extract_tech_stack_from_history B (Main.agent st))) = Ok tech_stack ->
  llm B (TECH_QUESTIONS_PROMPT_TEMPLATE (PyStr.join ", " tech_stack)) = Ok response ->
  match assessment_parser B response with
  | Ok parsed => flatten (assessment parsed) = []
  | Raise _ => True
  end ->
  let self := Main.agent st in
  exists self',
    process_user_input S B user_input (State.GATHER_INFO S) self =
      (Ok ("I apologize, question generation failed. Ending conversation.",
           State.END S), self',
       [extraction_prompt (window self);
        TECH_QUESTIONS_PROMPT_TEMPLATE (PyStr.join ", " tech_stack)]) /\
    all_questions_list self' = [] /\
    current_question_index self' = 0 /\
    memory self' = memory self /\
    user_answers self' = user_answers self.
Proof.
  intros HS Hreach Hlabel Hu Hc Hts Hgen Hparse self.
  pose proof (reachable_inv S st HS Hreach) as [_ Hinv].
  pose proof (labels_ne S HS) as (N1 & N2 & N3 & N4 & N5 & N6).
  rewrite Hlabel in Hinv. fold self in Hinv, Hts, Hc.
  destruct Hinv as [(_ & Hq & Hi & _) | [(E & _) | E]]; try congruence.
  rewrite (confirm_run S HS B user_input Hu self Hc). cbv zeta.
  rewrite _extract_tech_stack_from_history_eq in Hts. cbv zeta in Hts.
  cbn [fst] in Hts. injection Hts as Hts. rewrite Hts, Hgen.
  destruct (assessment_parser B response) as [parsed|e]; fields.
  - rewrite Hq, Hparse. cbn [app]. eexists. split; [reflexivity|]. fields.
    repeat split; assumption || reflexivity.
  - rewrite Hq. eexists. split; [reflexivity|].
    repeat split; assumption || reflexivity.
Qed.

Lemma no_questions_ends_session_witness :
  let st := Main.run State.main [(hollow, "Ada")] in
  State.distinct State.main = true /\
  Main.reachable State.main st /\
  Main.current_state st = State.GATHER_INFO State.main /\
  is_exit "next" = false /\
  confirms "next" (Main.agent st) = true /\
  flatten (assessment no_questions) = [] /\
  fst (fst (process_user_input State.main hollow "next"
              (State.GATHER_INFO State.main) (Main.agent st))) =
    Ok ("I apologize, question generation failed. Ending conversation.", "END").
Proof.
  intros st.
  assert (Hreach : Main.reachable State.main st) by (eexists; reflexivity).
  split; [reflexivity|]. split; [exact Hreach|]. split; [reflexivity|].
  split; [reflexivity|]. split; [reflexivity|]. split; [reflexivity|].
  destruct (no_questions_ends_session State.main st hollow "next"
              ["Python"; "SQL"] "{...}" eq_refl Hreach eq_refl eq_refl eq_refl
              eq_refl eq_refl eq_refl) as (self' & Hrun & _).
  rewrite Hrun. reflexivity.
Defined.

(** X13. A failure inside [_generate_technical_questions] has no partial
    effect.  If the model raises on the generation prompt, the same
    exception leaves the generator; if the model answers and the decoder
    raises, the generator returns [None].  Either way the object is exactly
    as before and the generation prompt was sent once. *)
Theorem generation_failure_leaves_object (B : Backend) (tech_stack : list string)
    (self : TalentScoutAssistant) :
  let p := TECH_QUESTIONS_PROMPT_TEMPLATE (PyStr.join ", " tech_stack) in
  (forall e, llm B p = Raise e ->
     _generate_technical_questions B tech_stack self = (Raise e, self, [p])) /\
  (forall response e, llm B p = Ok response ->
     assessment_parser B response = Raise e ->
     _generate_technical_questions B tech_stack self = (Ok None, self, [p])).
Proof.
  cbv zeta. split.
  - intros e Hgen. rewrite _generate_technical_questions_eq. cbv zeta.
    now rewrite Hgen.
  - intros response e Hgen Hparse. rewrite _generate_technical_questions_eq.
    cbv zeta. now rewrite Hgen, Hparse.
Qed.

Lemma generation_failure_leaves_object_witness :
  llm undecodable (TECH_QUESTIONS_PROMPT_TEMPLATE (PyStr.join ", " ["Python"])) =
    Ok "not json" /\
  assessment_parser undecodable "not json" = Raise (Exc "OutputParserException") /\
  _generate_technical_questions undecodable ["Python"] init =
    (Ok None, init, [TECH_QUESTIONS_PROMPT_TEMPLATE "Python"]).
Proof.
  split; [reflexivity|]. split; [reflexivity|].
  exact (proj2 (generation_failure_leaves_object undecodable ["Python"] init)
           "not json" (Exc "OutputParserException") eq_refl eq_refl).
Defined.
